(** * Scientific calculator: the state machine of [App.tsx]

    A shallow embedding of the React component [App] of
    [src/project/src/App.tsx]: its state hooks, its event handlers and the
    buttons and keys that trigger them, followed by the properties of the
    calculation engine.

    JavaScript numbers are IEEE 754 binary64 values; they are modelled by
    [spec_float] with precision 53 and maximal exponent 1024, whose
    operations are computed on integers and correctly rounded. *)

From Stdlib Require Import ZArith List String Ascii Bool Lia.
From Stdlib Require Import SpecFloat DecimalString.
Import ListNotations.

Local Open Scope string_scope.
Local Open Scope Z_scope.

(** ** JavaScript numbers *)

Module JsNumber.

Definition number : Type := spec_float.

Definition prec : Z := 53.
Definition emax : Z := 1024.

Definition NaN : number := S754_nan.
Definition Infinity : number := S754_infinity false.
Definition zero : number := S754_zero false.

(** The number closest to the rational [n / d] ([0 <= n], [0 < d]) with the
    sign [neg], ties to even. *)
Definition ofRatio (neg : bool) (n d : Z) : number :=
  let '(q, e, l) := SFdiv_core_binary prec emax n 0 d 0 in
  binary_round_aux prec emax neg q e l.

(** The number closest to [n * 10 ^ e]. *)
Definition ofDecimal (neg : bool) (n e : Z) : number :=
  if 0 <=? e then ofRatio neg (n * 10 ^ e) 1 else ofRatio neg n (10 ^ (- e)).

Definition ofZ (z : Z) : number := ofDecimal (z <? 0) (Z.abs z) 0.

Definition add : number -> number -> number := SFadd prec emax.
Definition sub : number -> number -> number := SFsub prec emax.
Definition mul : number -> number -> number := SFmul prec emax.
Definition div : number -> number -> number := SFdiv prec emax.
Definition sqrt : number -> number := SFsqrt prec emax.

(** [x === y] and [x < y] on numbers. *)
Definition strictEq : number -> number -> bool := SFeqb.
Definition lt : number -> number -> bool := SFltb.

(** ToBoolean on a number: [NaN] and the two zeros are falsy. *)
Definition truthy (x : number) : bool :=
  match x with
  | S754_nan | S754_zero _ => false
  | _ => true
  end.

(** [Number.isInteger]. *)
Definition isInteger (x : number) : bool :=
  match x with
  | S754_zero _ => true
  | S754_finite _ m e => (0 <=? e) || (Z.pos m mod 2 ^ (- e) =? 0)
  | _ => false
  end.

(** [Math.PI] and [Math.E]. *)
Definition PI : number := S754_finite false 7074237752028440 (-51).
Definition E : number := S754_finite false 6121026514868073 (-51).

(** *** [Number::toString] in radix 10 *)

Definition decimalOfZ (z : Z) : string :=
  NilZero.string_of_uint (N.to_uint (Z.to_N z)).

(** How many decimal digits a positive integer has. *)
Fixpoint countDigits (fuel : nat) (z : Z) : Z :=
  match fuel with
  | O => 0
  | S fuel' => if z <? 10 then 1 else 1 + countDigits fuel' (z / 10)
  end.

Definition digitCount (z : Z) : Z := countDigits (S (Z.to_nat (Z.log2 z))) z.

(** The least [j], searched upwards from the given one, with
    [d <= n * 10 ^ j]. *)
Fixpoint leastScale (fuel : nat) (n d j : Z) : Z :=
  match fuel with
  | O => j
  | S fuel' => if d <=? n * 10 ^ j then j else leastScale fuel' n d (j + 1)
  end.

(** The integer [n] with [10 ^ (n - 1) <= m * 2 ^ e < 10 ^ n]. *)
Definition decimalExponent (m : positive) (e : Z) : Z :=
  if 0 <=? e then digitCount (Z.pos m * 2 ^ e)
  else
    let d := 2 ^ (- e) in
    if d <=? Z.pos m then digitCount (Z.pos m / d)
    else 1 - leastScale (Z.to_nat (- e)) (Z.pos m) d 1.

(** [floor (m * 2 ^ e * 10 ^ p)] and whether that product is an integer. *)
Definition scaledFloor (m : positive) (e p : Z) : Z * bool :=
  let num := Z.pos m * (if 0 <=? e then 2 ^ e else 1)
                     * (if 0 <=? p then 10 ^ p else 1) in
  let den := (if 0 <=? e then 1 else 2 ^ (- e))
             * (if 0 <=? p then 1 else 10 ^ (- p)) in
  (num / den, num mod den =? 0).

(** Is [2 * m * 2 ^ e * 10 ^ p] at most [2 * s + 1], that is, is [s] at
    least as close to the scaled value as [s + 1]? *)
Definition lowerIsCloser (m : positive) (e p s : Z) : bool :=
  let num := 2 * Z.pos m * (if 0 <=? e then 2 ^ e else 1)
                     * (if 0 <=? p then 10 ^ p else 1) in
  let den := (if 0 <=? e then 1 else 2 ^ (- e))
             * (if 0 <=? p then 1 else 10 ^ (- p)) in
  num <=? (2 * s + 1) * den.

Definition sameNumber (x y : number) : bool :=
  match x, y with
  | S754_finite sx mx ex, S754_finite sy my ey =>
      Bool.eqb sx sy && (Z.pos mx =? Z.pos my) && (ex =? ey)
  | _, _ => false
  end.

(** The shortest digits [(s, n)], tried with [k], [k + 1], ... digits, such
    that [s * 10 ^ (n - k)] reads back as [m * 2 ^ e]; of two candidates with
    as many digits the one closer to the number. *)
Fixpoint shortestDigits (fuel : nat) (m : positive) (e n k : Z) : Z * Z :=
  let '(lo, exact) := scaledFloor m e (k - n) in
  match fuel with
  | O => (lo, n)
  | S fuel' =>
      let x := S754_finite false m e in
      let okLo := sameNumber (ofDecimal false lo (n - k)) x in
      let okHi := sameNumber (ofDecimal false (lo + 1) (n - k)) x in
      let hi := if lo + 1 =? 10 ^ k then (10 ^ (k - 1), n + 1) else (lo + 1, n) in
      if exact then (lo, n)
      else if okLo && okHi then
        if lowerIsCloser m e (k - n) lo then (lo, n) else hi
      else if okLo then (lo, n)
      else if okHi then hi
      else shortestDigits fuel' m e n (k + 1)
  end.

Fixpoint zeros (n : nat) : string :=
  match n with
  | O => EmptyString
  | S n' => "0" ++ zeros n'
  end.

Definition strlen (s : string) : Z := Z.of_nat (String.length s).

Definition substringZ (from len : Z) (s : string) : string :=
  String.substring (Z.to_nat from) (Z.to_nat len) s.

(** The text of a positive finite number from its digits [s] and its
    decimal exponent [n]. *)
Definition formatDigits (s n : Z) : string :=
  let digits := decimalOfZ s in
  let k := strlen digits in
  if (k <=? n) && (n <=? 21) then digits ++ zeros (Z.to_nat (n - k))
  else if (0 <? n) && (n <=? 21) then
    substringZ 0 n digits ++ "." ++ substringZ n (k - n) digits
  else if (-6 <? n) && (n <=? 0) then
    "0." ++ zeros (Z.to_nat (- n)) ++ digits
  else
    let expo := (if 0 <=? n - 1 then "+" else "-") ++ decimalOfZ (Z.abs (n - 1)) in
    if k =? 1 then digits ++ "e" ++ expo
    else substringZ 0 1 digits ++ "." ++ substringZ 1 (k - 1) digits ++ "e" ++ expo.

(** [String(x)], which is also what a template literal does to a number. *)
Definition toString (x : number) : string :=
  match x with
  | S754_nan => "NaN"
  | S754_zero _ => "0"
  | S754_infinity s => if s then "-Infinity" else "Infinity"
  | S754_finite s m e =>
      let '(d, n) := shortestDigits 17 m e (decimalExponent m e) 1 in
      (if s then "-" else EmptyString) ++ formatDigits d n
  end.

(** *** [parseFloat] *)

Definition isDigit (c : ascii) : bool :=
  let n := Z.of_nat (nat_of_ascii c) in (48 <=? n) && (n <=? 57).

Definition digitValue (c : ascii) : Z := Z.of_nat (nat_of_ascii c) - 48.

Definition isWhiteSpace (c : ascii) : bool :=
  let n := Z.of_nat (nat_of_ascii c) in ((9 <=? n) && (n <=? 13)) || (n =? 32).

Fixpoint trimStart (s : string) : string :=
  match s with
  | String c r => if isWhiteSpace c then trimStart r else s
  | EmptyString => s
  end.

(** The leading decimal digits of [s]: their value after [acc], how many
    there are after [count], and what follows them. *)
Fixpoint readDigits (s : string) (acc count : Z) : Z * Z * string :=
  match s with
  | String c r =>
      if isDigit c then readDigits r (10 * acc + digitValue c) (count + 1)
      else (acc, count, s)
  | EmptyString => (acc, count, s)
  end.

Definition readSign (s : string) : bool * string :=
  match s with
  | String "-" r => (true, r)
  | String "+" r => (false, r)
  | _ => (false, s)
  end.

(** The exponent part at the head of [s], 0 when there is none. *)
Definition readExponent (s : string) : Z :=
  match s with
  | String ("e" | "E") r =>
      let '(neg, r') := readSign r in
      let '(v, count, _) := readDigits r' 0 0 in
      if count =? 0 then 0 else if neg then - v else v
  | _ => 0
  end.

(** [parseFloat]: the value of the longest prefix of the trimmed text that
    is a decimal literal, [NaN] when there is none. *)
Definition parseFloat (s : string) : number :=
  let '(neg, t) := readSign (trimStart s) in
  if String.prefix "Infinity" t then S754_infinity neg
  else
    let '(ip, ic, r1) := readDigits t 0 0 in
    let '(fp, fc, r2) :=
      match r1 with
      | String "." r => readDigits r 0 0
      | _ => (0, 0, r1)
      end in
    if (ic =? 0) && (fc =? 0) then NaN
    else
      let mant := ip * 10 ^ fc + fp in
      if mant =? 0 then S754_zero neg
      else ofDecimal neg mant (readExponent r2 - fc).

End JsNumber.

Import JsNumber.

(** ** Strings *)

(** [s.indexOf(sub)], with -1 when [sub] does not occur. *)
Definition indexOf (s sub : string) : Z :=
  match String.index 0 sub s with
  | Some i => Z.of_nat i
  | None => -1
  end.

(** [s.slice(0, -1)]. *)
Definition dropLast (s : string) : string :=
  String.substring 0 (String.length s - 1) s.

(** ** Exceptions

    What evaluating an expression yields: a value, or a thrown error with its
    message. *)

Inductive completion (A : Type) : Type :=
| Normal (a : A)
| Throw (message : string).

Arguments Normal {A} a.
Arguments Throw {A} message.

(** ** The platform

    The functions of [Math] that the language leaves to the implementation,
    and how many nested calls of [factorial] the call stack holds before a
    [RangeError] is thrown. *)

Record Platform : Type := {
  Math_sin : number -> number;
  Math_cos : number -> number;
  Math_tan : number -> number;
  Math_log10 : number -> number;
  Math_log : number -> number;
  Math_pow : number -> number -> number;
  callStackSize : nat
}.

(** ** The state hooks of [App] *)

Record HistoryEntry : Type := {
  expression : string;
  result : string
}.

Record State : Type := mkState {
  display : string;
  previousValue : option number;
  operation : option string;
  waitingForNewValue : bool;
  memory : number;
  history : list HistoryEntry;
  showHistory : bool;
  isError : bool
}.

(** The values given to [useState]. *)
Definition initialState : State :=
  {| display := "0";
     previousValue := None;
     operation := None;
     waitingForNewValue := false;
     memory := zero;
     history := [];
     showHistory := false;
     isError := false |}.

(** The setters. A handler is a closure over the constants [display],
    [isError], ... of the render that created it: calling a setter queues a
    value for the next render and does not change what the handler reads. In
    a handler below [s] is the state that is read, and the setters are
    applied in the order of the calls to the state of the next render, so
    that of two calls of one setter the later one wins. *)

Definition setDisplay (v : string) (q : State) : State :=
  mkState v (previousValue q) (operation q) (waitingForNewValue q)
          (memory q) (history q) (showHistory q) (isError q).

Definition setPreviousValue (v : option number) (q : State) : State :=
  mkState (display q) v (operation q) (waitingForNewValue q)
          (memory q) (history q) (showHistory q) (isError q).

Definition setOperation (v : option string) (q : State) : State :=
  mkState (display q) (previousValue q) v (waitingForNewValue q)
          (memory q) (history q) (showHistory q) (isError q).

Definition setWaitingForNewValue (v : bool) (q : State) : State :=
  mkState (display q) (previousValue q) (operation q) v
          (memory q) (history q) (showHistory q) (isError q).

Definition setMemory (v : number) (q : State) : State :=
  mkState (display q) (previousValue q) (operation q) (waitingForNewValue q)
          v (history q) (showHistory q) (isError q).

(** [setHistory] takes an updater, which is given the pending history. *)
Definition setHistory (f : list HistoryEntry -> list HistoryEntry) (q : State)
  : State :=
  mkState (display q) (previousValue q) (operation q) (waitingForNewValue q)
          (memory q) (f (history q)) (showHistory q) (isError q).

Definition setShowHistory (v : bool) (q : State) : State :=
  mkState (display q) (previousValue q) (operation q) (waitingForNewValue q)
          (memory q) (history q) v (isError q).

Definition setIsError (v : bool) (q : State) : State :=
  mkState (display q) (previousValue q) (operation q) (waitingForNewValue q)
          (memory q) (history q) (showHistory q) v.

(** The updater [prev => [entry, ...prev.slice(0, 9)]]. *)
Definition pushHistory (entry : HistoryEntry) (prev : list HistoryEntry)
  : list HistoryEntry :=
  entry :: firstn 9 prev.

(** [operation] where it is truthy: [null] and the empty string are not. *)
Definition truthyOperation (o : option string) : option string :=
  match o with
  | Some op => if (op =? EmptyString)%string then None else Some op
  | None => None
  end.

(** ** The handlers that do not compute *)

Definition handleNumber (num : string) (s : State) : State :=
  let q := s in
  let q := if isError s then setIsError false (setDisplay "0" q) else q in
  if waitingForNewValue s then
    setWaitingForNewValue false (setDisplay num q)
  else
    setDisplay (if (display s =? "0")%string then num else display s ++ num) q.

Definition handleDecimal (s : State) : State :=
  if isError s then setIsError false (setDisplay "0." s)
  else if waitingForNewValue s then
    setWaitingForNewValue false (setDisplay "0." s)
  else if indexOf (display s) "." =? -1 then
    setDisplay (display s ++ ".") s
  else s.

Definition handleClear (s : State) : State :=
  setIsError false
    (setWaitingForNewValue false
      (setOperation None (setPreviousValue None (setDisplay "0" s)))).

Definition handleAllClear (s : State) : State :=
  setHistory (fun _ => []) (setMemory zero (handleClear s)).

Definition handleMemory (func : string) (s : State) : State :=
  let inputValue := parseFloat (display s) in
  if (func =? "MC")%string then setMemory zero s
  else if (func =? "MR")%string then
    setWaitingForNewValue true (setDisplay (toString (memory s)) s)
  else if (func =? "MS")%string then setMemory inputValue s
  else if (func =? "M+")%string then setMemory (add (memory s) inputValue) s
  else if (func =? "M-")%string then setMemory (sub (memory s) inputValue) s
  else s.

(** The backspace button and the Backspace key. *)
Definition handleBackspace (s : State) : State :=
  if (1 <? String.length (display s))%nat then setDisplay (dropLast (display s)) s
  else setDisplay "0" s.

(** A click on an entry of the history panel. *)
Definition recallHistoryEntry (entry : HistoryEntry) (s : State) : State :=
  setWaitingForNewValue true (setDisplay (result entry) s).

(** [factorial], with the number of nested calls of it that still fit on
    the stack; running out of them is the [RangeError] of the platform. *)
Fixpoint factorial (depth : nat) (n : number) : completion number :=
  match depth with
  | O => Throw "Maximum call stack size exceeded"
  | S depth' =>
      if strictEq n zero || strictEq n (ofZ 1) then Normal (ofZ 1)
      else
        match factorial depth' (sub n (ofZ 1)) with
        | Normal r => Normal (mul n r)
        | Throw e => Throw e
        end
  end.

Section App.

Variable P : Platform.

(** ** The handlers that compute *)

Definition calculate (firstValue secondValue : number) (operation : string)
  : completion number :=
  if (operation =? "+")%string then Normal (add firstValue secondValue)
  else if (operation =? "-")%string then Normal (sub firstValue secondValue)
  else if (operation =? "*")%string then Normal (mul firstValue secondValue)
  else if (operation =? "/")%string then
    if strictEq secondValue zero then Throw "Division by zero"
    else Normal (div firstValue secondValue)
  else if (operation =? "^")%string then Normal (Math_pow P firstValue secondValue)
  else Normal secondValue.

(** The catch block of [handleOperation] and of [handleEquals]. *)
Definition abandon (s : State) : State :=
  setOperation None
    (setPreviousValue None (setIsError true (setDisplay "Error" s))).

Definition handleOperation (nextOperation : string) (s : State) : State :=
  let inputValue := parseFloat (display s) in
  let finish q :=
    setOperation (Some nextOperation) (setWaitingForNewValue true q) in
  match previousValue s with
  | None => finish (setPreviousValue (Some inputValue) s)
  | Some previous =>
      match truthyOperation (operation s) with
      | Some op =>
          let currentValue := if truthy previous then previous else zero in
          match calculate currentValue inputValue op with
          | Normal newValue =>
              finish
                (setHistory
                   (pushHistory
                      {| expression :=
                           toString currentValue ++ " " ++ op ++ " "
                             ++ toString inputValue;
                         result := toString newValue |})
                   (setPreviousValue (Some newValue)
                      (setDisplay (toString newValue) s)))
          | Throw _ => abandon s
          end
      | None => finish s
      end
  end.

Definition handleEquals (s : State) : State :=
  let inputValue := parseFloat (display s) in
  match previousValue s with
  | Some previous =>
      match truthyOperation (operation s) with
      | Some op =>
          match calculate previous inputValue op with
          | Normal newValue =>
              setWaitingForNewValue true
                (setOperation None
                   (setPreviousValue None
                      (setHistory
                         (pushHistory
                            {| expression :=
                                 toString previous ++ " " ++ op ++ " "
                                   ++ toString inputValue;
                               result := toString newValue |})
                         (setDisplay (toString newValue) s))))
          | Throw _ => abandon s
          end
      | None => s
      end
  | None => s
  end.

(** The switch of [handleScientific]: the result, [None] for a name that is
    not a function (the handler returns), or the error thrown. *)
Definition scientificValue (func : string) (inputValue : number)
  : completion (option number) :=
  if (func =? "sin")%string then Normal (Some (Math_sin P inputValue))
  else if (func =? "cos")%string then Normal (Some (Math_cos P inputValue))
  else if (func =? "tan")%string then Normal (Some (Math_tan P inputValue))
  else if (func =? "log")%string then Normal (Some (Math_log10 P inputValue))
  else if (func =? "ln")%string then Normal (Some (Math_log P inputValue))
  else if (func =? "sqrt")%string then
    if lt inputValue zero then Throw "Invalid input"
    else Normal (Some (sqrt inputValue))
  else if (func =? "!")%string then
    if lt inputValue zero || negb (isInteger inputValue) then
      Throw "Invalid input"
    else
      match factorial (callStackSize P) inputValue with
      | Normal r => Normal (Some r)
      | Throw e => Throw e
      end
  else if (func =? "1/x")%string then
    if strictEq inputValue zero then Throw "Division by zero"
    else Normal (Some (div (ofZ 1) inputValue))
  else if (func =? "x²")%string then Normal (Some (mul inputValue inputValue))
  else if (func =? "π")%string then Normal (Some PI)
  else if (func =? "e")%string then Normal (Some E)
  else Normal None.

Definition handleScientific (func : string) (s : State) : State :=
  let inputValue := parseFloat (display s) in
  match scientificValue func inputValue with
  | Normal (Some result) =>
      setWaitingForNewValue true
        (setHistory
           (pushHistory
              {| expression := func ++ "(" ++ toString inputValue ++ ")";
                 result := toString result |})
           (setDisplay (toString result) s))
  | Normal None => s
  | Throw _ => setIsError true (setDisplay "Error" s)
  end.

(** ** The buttons and keys *)

Inductive Digit : Type := D0 | D1 | D2 | D3 | D4 | D5 | D6 | D7 | D8 | D9.

Definition digitText (d : Digit) : string :=
  match d with
  | D0 => "0" | D1 => "1" | D2 => "2" | D3 => "3" | D4 => "4"
  | D5 => "5" | D6 => "6" | D7 => "7" | D8 => "8" | D9 => "9"
  end.

Inductive Operator : Type := Plus | Minus | Times | Divide | Power.

Definition operatorText (o : Operator) : string :=
  match o with
  | Plus => "+" | Minus => "-" | Times => "*" | Divide => "/" | Power => "^"
  end.

Inductive Scientific : Type :=
| Sin | Cos | Tan | Log | Ln | Sqrt | Factorial | Reciprocal | Square
| ConstPi | ConstE.

Definition scientificText (f : Scientific) : string :=
  match f with
  | Sin => "sin" | Cos => "cos" | Tan => "tan" | Log => "log" | Ln => "ln"
  | Sqrt => "sqrt" | Factorial => "!" | Reciprocal => "1/x" | Square => "x²"
  | ConstPi => "π" | ConstE => "e"
  end.

Inductive MemoryKey : Type := MC | MR | MS | MPlus | MMinus.

Definition memoryText (m : MemoryKey) : string :=
  match m with
  | MC => "MC" | MR => "MR" | MS => "MS" | MPlus => "M+" | MMinus => "M-"
  end.

(** What the user can do: the buttons of the calculator and, while the
    history panel is shown, its clear button and its entries; the keys of the
    keyboard listener call the same handlers. *)
Inductive Event : Type :=
| NumberEv (d : Digit)
| DecimalEv
| OperationEv (o : Operator)
| EqualsEv
| ScientificEv (f : Scientific)
| ClearEv
| AllClearEv
| MemoryEv (m : MemoryKey)
| BackspaceEv
| ToggleHistoryEv
| ClearHistoryEv
| RecallEv (index : nat).

Definition dispatch (ev : Event) (s : State) : State :=
  match ev with
  | NumberEv d => handleNumber (digitText d) s
  | DecimalEv => handleDecimal s
  | OperationEv o => handleOperation (operatorText o) s
  | EqualsEv => handleEquals s
  | ScientificEv f => handleScientific (scientificText f) s
  | ClearEv => handleClear s
  | AllClearEv => handleAllClear s
  | MemoryEv m => handleMemory (memoryText m) s
  | BackspaceEv => handleBackspace s
  | ToggleHistoryEv => setShowHistory (negb (showHistory s)) s
  | ClearHistoryEv =>
      if showHistory s then setHistory (fun _ => []) s else s
  | RecallEv index =>
      if showHistory s then
        match nth_error (history s) index with
        | Some entry => recallHistoryEntry entry s
        | None => s
        end
      else s
  end.

(** The state after a sequence of events, first to last. *)
Definition run (evs : list Event) (s : State) : State :=
  fold_left (fun st ev => dispatch ev st) evs s.

(** The states the user can bring the calculator to. *)
Inductive reachable : State -> Prop :=
| reachable_initial : reachable initialState
| reachable_dispatch (ev : Event) (s : State) :
    reachable s -> reachable (dispatch ev s).

(** The listener of [keydown], given [event.key]. The comparisons with '0'
    and '9' are those of strings; the code of the Backspace key is that of
    the backspace button. *)
Definition handleKeyPress (key : string) (s : State) : State :=
  if String.leb "0" key && String.leb key "9" then handleNumber key s
  else if (key =? ".")%string then handleDecimal s
  else if existsb (String.eqb key) ["+"; "-"; "*"; "/"] then
    handleOperation key s
  else if (key =? "Enter")%string || (key =? "=")%string then handleEquals s
  else if (key =? "Escape")%string then handleClear s
  else if (key =? "Backspace")%string then handleBackspace s
  else s.

End App.

(** ** Notions used in the properties *)

(** The text of a sequence of digit keys. *)
Fixpoint digitsText (ds : list Digit) : string :=
  match ds with
  | [] => EmptyString
  | d :: r => digitText d ++ digitsText r
  end.

Fixpoint dropZeros (ds : list Digit) : list Digit :=
  match ds with
  | D0 :: r => dropZeros r
  | _ => ds
  end.

(** The digits typed, without their leading zeros; "0" when nothing else is
    left. *)
Definition typedNumber (ds : list Digit) : string :=
  match dropZeros ds with
  | [] => "0"
  | r => digitsText r
  end.

(** The events that leave the error state. *)
Definition clearsError (ev : Event) : bool :=
  match ev with
  | NumberEv _ | DecimalEv | ClearEv | AllClearEv => true
  | _ => false
  end.

(** The events that may write the memory. *)
Definition writesMemory (ev : Event) : bool :=
  match ev with
  | AllClearEv | MemoryEv MC | MemoryEv MS | MemoryEv MPlus
  | MemoryEv MMinus => true
  | _ => false
  end.

(** n! as an integer. *)
Fixpoint factZ (n : nat) : Z :=
  match n with
  | O => 1
  | S k => Z.of_nat n * factZ k
  end.

(** How many times the character [c] occurs in [s]. *)
Fixpoint countChar (c : ascii) (s : string) : nat :=
  match s with
  | EmptyString => O
  | String a r => ((if Ascii.eqb a c then 1 else 0) + countChar c r)%nat
  end.

(** What an event may do to the history. *)
Inductive historyStep (old new : list HistoryEntry) : Prop :=
| history_kept : new = old -> historyStep old new
| history_emptied : new = [] -> historyStep old new
| history_pushed (entry : HistoryEntry) :
    new = pushHistory entry old -> historyStep old new.

(** The pending operand and operator are both there, the operator being one
    of the five keys, or both absent. *)
Inductive pendingPair (s : State) : Prop :=
| pending_both (v : number) (o : Operator) :
    previousValue s = Some v -> operation s = Some (operatorText o) ->
    pendingPair s
| pending_neither :
    previousValue s = None -> operation s = None -> pendingPair s.

(** The square of each of 1, 2, ..., 11 in turn: eleven operations that
    succeed. *)
Definition elevenSquares : list Event :=
  [ NumberEv D1; ScientificEv Square; NumberEv D2; ScientificEv Square;
    NumberEv D3; ScientificEv Square; NumberEv D4; ScientificEv Square;
    NumberEv D5; ScientificEv Square; NumberEv D6; ScientificEv Square;
    NumberEv D7; ScientificEv Square; NumberEv D8; ScientificEv Square;
    NumberEv D9; ScientificEv Square;
    NumberEv D1; NumberEv D0; ScientificEv Square;
    NumberEv D1; NumberEv D1; ScientificEv Square ].

(** A text that is not empty and has at most one decimal point. *)
Definition wellFormedText (t : string) : Prop :=
  t <> EmptyString /\ (countChar "." t <= 1)%nat.

(** The display and the recorded results are such texts. *)
Definition textInvariant (s : State) : Prop :=
  wellFormedText (display s) /\
  Forall (fun entry => wellFormedText (result entry)) (history s).

(** A platform whose implementation-defined functions answer [NaN] and whose
    stack holds 4000 nested calls, for evaluating runs that call none of
    these functions. *)
Definition plainPlatform : Platform :=
  {| Math_sin := fun _ => NaN;
     Math_cos := fun _ => NaN;
     Math_tan := fun _ => NaN;
     Math_log10 := fun _ => NaN;
     Math_log := fun _ => NaN;
     Math_pow := fun _ _ => NaN;
     callStackSize := 4000 |}.

(** ** Properties *)

(** *** Strings *)

Lemma index_dot_append (s : string) : String.index 0 "." (s ++ ".") <> None.
Proof.
  induction s as [|c s IH].
  - discriminate.
  - cbn [String.index String.append String.prefix].
    destruct (Ascii.ascii_dec "." c).
    + destruct (s ++ "."); discriminate.
    + destruct (String.index 0 "." (s ++ ".")); [discriminate | contradiction].
Qed.

Lemma indexOf_dot_append (s : string) : (indexOf (s ++ ".") "." =? -1) = false.
Proof.
  unfold indexOf. pose proof (index_dot_append s) as H.
  destruct (String.index 0 "." (s ++ ".")); [|contradiction].
  apply Z.eqb_neq. lia.
Qed.

(** *** Numbers and their text *)

Example toString_examples :
  List.map toString
    [ add (parseFloat "0.1") (parseFloat "0.2"); div (ofZ 1) (ofZ 3);
      PI; E; parseFloat "1e21"; parseFloat "0.0000001";
      div (ofZ 1) zero; sub zero (ofZ 2); mul (ofZ 7) (ofZ 2) ]
  = [ "0.30000000000000004"; "0.3333333333333333";
      "3.141592653589793"; "2.718281828459045"; "1e+21"; "1e-7";
      "Infinity"; "-2"; "14" ].
Proof. vm_compute. reflexivity. Qed.

Example parseFloat_examples :
  List.map parseFloat ["0."; "Error"; "Error7"; "-"; "Infinity"; "42"]
  = [ zero; NaN; NaN; NaN; Infinity; ofZ 42 ].
Proof. vm_compute. reflexivity. Qed.

(** *** The history updater *)

Lemma pushHistory_length (entry : HistoryEntry) (prev : list HistoryEntry) :
  (List.length (pushHistory entry prev) <= 10)%nat.
Proof.
  unfold pushHistory. cbn [List.length]. rewrite length_firstn. lia.
Qed.

Lemma firstn_removelast {A : Type} (l : list A) (n : nat) :
  List.length l = S n -> firstn n l = removelast l.
Proof.
  revert n. induction l as [|a l IH]; intros n H; [discriminate|].
  destruct l as [|b l].
  - injection H as <-. reflexivity.
  - destruct n as [|n]; [discriminate|].
    cbn [firstn]. rewrite (IH n) by (cbn in *; lia). reflexivity.
Qed.

Lemma pushHistory_full (entry : HistoryEntry) (prev : list HistoryEntry) :
  List.length prev = 10%nat -> pushHistory entry prev = entry :: removelast prev.
Proof.
  intros H. unfold pushHistory. now rewrite (firstn_removelast prev 9).
Qed.

Lemma pushHistory_room (entry : HistoryEntry) (prev : list HistoryEntry) :
  (List.length prev < 10)%nat -> pushHistory entry prev = entry :: prev.
Proof.
  intros H. unfold pushHistory. rewrite firstn_all2 by lia. reflexivity.
Qed.

Section Properties.

Variable P : Platform.

Lemma reachable_run (evs : list Event) (s : State) :
  reachable P s -> reachable P (run P evs s).
Proof.
  revert s. induction evs as [|ev evs IH]; intros s H; [exact H|].
  apply IH. now constructor.
Qed.

(** *** What each event does to the history *)

Lemma handleOperation_history (next : string) (s : State) :
  historyStep (history s) (history (handleOperation P next s)).
Proof.
  unfold handleOperation.
  destruct (previousValue s) as [previous|]; [|now apply history_kept].
  destruct (truthyOperation (operation s)) as [op|];
    [|now apply history_kept].
  destruct (calculate P _ _ _) as [v|e].
  - eapply history_pushed. reflexivity.
  - now apply history_kept.
Qed.

Lemma handleEquals_history (s : State) :
  historyStep (history s) (history (handleEquals P s)).
Proof.
  unfold handleEquals.
  destruct (previousValue s) as [previous|]; [|now apply history_kept].
  destruct (truthyOperation (operation s)) as [op|];
    [|now apply history_kept].
  destruct (calculate P _ _ _) as [v|e].
  - eapply history_pushed. reflexivity.
  - now apply history_kept.
Qed.

Lemma handleScientific_history (func : string) (s : State) :
  historyStep (history s) (history (handleScientific P func s)).
Proof.
  unfold handleScientific.
  destruct (scientificValue P func _) as [[r|]|e].
  - eapply history_pushed. reflexivity.
  - now apply history_kept.
  - now apply history_kept.
Qed.

Lemma handleNumber_history (num : string) (s : State) :
  history (handleNumber num s) = history s.
Proof.
  unfold handleNumber.
  destruct (isError s), (waitingForNewValue s); reflexivity.
Qed.

Lemma handleDecimal_history (s : State) :
  history (handleDecimal s) = history s.
Proof.
  unfold handleDecimal.
  destruct (isError s), (waitingForNewValue s),
    (indexOf (display s) "." =? -1); reflexivity.
Qed.

Lemma handleMemory_history (m : MemoryKey) (s : State) :
  history (handleMemory (memoryText m) s) = history s.
Proof. destruct m; reflexivity. Qed.

Lemma handleBackspace_history (s : State) :
  history (handleBackspace s) = history s.
Proof.
  unfold handleBackspace.
  destruct (1 <? String.length (display s))%nat; reflexivity.
Qed.

Lemma dispatch_history (ev : Event) (s : State) :
  historyStep (history s) (history (dispatch P ev s)).
Proof.
  destruct ev; cbn [dispatch].
  - apply history_kept, handleNumber_history.
  - apply history_kept, handleDecimal_history.
  - apply handleOperation_history.
  - apply handleEquals_history.
  - apply handleScientific_history.
  - now apply history_kept.
  - now apply history_emptied.
  - apply history_kept, handleMemory_history.
  - apply history_kept, handleBackspace_history.
  - now apply history_kept.
  - destruct (showHistory s); [now apply history_emptied | now apply history_kept].
  - destruct (showHistory s), (nth_error (history s) index);
      now apply history_kept.
Qed.

Lemma reachable_history_length (s : State) :
  reachable P s -> (List.length (history s) <= 10)%nat.
Proof.
  induction 1 as [|ev s _ IH]; [cbn; lia|].
  destruct (dispatch_history ev s) as [E|E|entry E]; rewrite E.
  - exact IH.
  - cbn; lia.
  - apply pushHistory_length.
Qed.

(** *** What each event does to the pending operation *)

Lemma pendingPair_frame (s s' : State) :
  previousValue s' = previousValue s -> operation s' = operation s ->
  pendingPair s -> pendingPair s'.
Proof.
  intros Hp Ho [v o H1 H2|H1 H2].
  - apply (pending_both s' v o); congruence.
  - apply pending_neither; congruence.
Qed.

Lemma handleNumber_pending (num : string) (s : State) :
  previousValue (handleNumber num s) = previousValue s /\
  operation (handleNumber num s) = operation s.
Proof.
  unfold handleNumber.
  destruct (isError s), (waitingForNewValue s); split; reflexivity.
Qed.

Lemma handleDecimal_pending (s : State) :
  previousValue (handleDecimal s) = previousValue s /\
  operation (handleDecimal s) = operation s.
Proof.
  unfold handleDecimal.
  destruct (isError s), (waitingForNewValue s),
    (indexOf (display s) "." =? -1); split; reflexivity.
Qed.

Lemma handleScientific_pending (func : string) (s : State) :
  previousValue (handleScientific P func s) = previousValue s /\
  operation (handleScientific P func s) = operation s.
Proof.
  unfold handleScientific.
  destruct (scientificValue P func _) as [[r|]|e]; split; reflexivity.
Qed.

Lemma handleBackspace_pending (s : State) :
  previousValue (handleBackspace s) = previousValue s /\
  operation (handleBackspace s) = operation s.
Proof.
  unfold handleBackspace.
  destruct (1 <? String.length (display s))%nat; split; reflexivity.
Qed.

Lemma handleOperation_pendingPair (o : Operator) (s : State) :
  pendingPair (handleOperation P (operatorText o) s).
Proof.
  unfold handleOperation.
  destruct (previousValue s) as [previous|] eqn:Hp.
  - destruct (truthyOperation (operation s)) as [op|].
    + destruct (calculate P _ _ _) as [v|e].
      * now apply (pending_both _ v o).
      * now apply pending_neither.
    + apply (pending_both _ previous o); [exact Hp | reflexivity].
  - now apply (pending_both _ (parseFloat (display s)) o).
Qed.

Lemma handleEquals_pendingPair (s : State) :
  pendingPair s -> pendingPair (handleEquals P s).
Proof.
  intros H. unfold handleEquals.
  destruct (previousValue s) as [previous|]; [|exact H].
  destruct (truthyOperation (operation s)) as [op|]; [|exact H].
  destruct (calculate P _ _ _) as [v|e]; now apply pending_neither.
Qed.

Lemma dispatch_pendingPair (ev : Event) (s : State) :
  pendingPair s -> pendingPair (dispatch P ev s).
Proof.
  intros H. destruct ev; cbn [dispatch].
  - apply (pendingPair_frame s); [apply handleNumber_pending .. | exact H].
  - apply (pendingPair_frame s); [apply handleDecimal_pending .. | exact H].
  - apply handleOperation_pendingPair.
  - now apply handleEquals_pendingPair.
  - apply (pendingPair_frame s); [apply handleScientific_pending .. | exact H].
  - now apply pending_neither.
  - now apply pending_neither.
  - destruct m; now apply (pendingPair_frame s).
  - apply (pendingPair_frame s); [apply handleBackspace_pending .. | exact H].
  - now apply (pendingPair_frame s).
  - destruct (showHistory s); now apply (pendingPair_frame s).
  - destruct (showHistory s), (nth_error (history s) index);
      now apply (pendingPair_frame s).
Qed.

(** *** The claims *)

(** C1 (as the code has it). From the initial state the keys 5, /, 0, = set
    the error flag and show the error text. The digit 7 pressed next clears
    the error flag, but the display it leaves is "Error7" and not "7":
    [handleNumber] queues [setDisplay('0')] and then appends the digit to the
    display of the render it was created in, which is "Error". *)
Theorem division_by_zero_then_digit :
  let failed :=
    run P [NumberEv D5; OperationEv Divide; NumberEv D0; EqualsEv]
      initialState in
  isError failed = true /\ display failed = "Error" /\
  isError (dispatch P (NumberEv D7) failed) = false /\
  display (dispatch P (NumberEv D7) failed) = "Error7" /\
  display (dispatch P (NumberEv D7) failed) <> "7".
Proof.
  cbv zeta. repeat split; try (vm_compute; reflexivity).
  vm_compute. discriminate.
Qed.

(** C3. Binary operators chain from left to right without precedence: from
    the initial state the keys 3, +, 4, *, 2, = leave 14 on the display, the
    first step having been recorded as 3 + 4 = 7 and the second as
    7 * 2 = 14. *)
Theorem chaining_left_to_right :
  let final :=
    run P [NumberEv D3; OperationEv Plus; NumberEv D4; OperationEv Times;
           NumberEv D2; EqualsEv] initialState in
  display final = "14" /\ display final <> "11" /\
  history final =
    [ {| expression := "7 * 2"; result := "14" |};
      {| expression := "3 + 4"; result := "7" |} ].
Proof.
  cbv zeta. repeat split; try (vm_compute; reflexivity).
  vm_compute. discriminate.
Qed.

(** C4. In every reachable state the history has at most 10 entries. Every
    event leaves the history as it was, empties it, or pushes one entry with
    the updater of the three handlers that record a calculation; that
    updater puts the new entry at index 0 and, when the history holds 10
    entries, drops the last (oldest) one. After eleven successful operations
    the first is gone and the eleventh is at index 0. *)
Theorem history_capped_newest_first (s : State) :
  reachable P s ->
  (List.length (history s) <= 10)%nat /\
  (forall ev, historyStep (history s) (history (dispatch P ev s))) /\
  (forall entry,
      nth_error (pushHistory entry (history s)) 0 = Some entry /\
      (List.length (pushHistory entry (history s)) <= 10)%nat /\
      ((List.length (history s) < 10)%nat ->
       pushHistory entry (history s) = entry :: history s) /\
      (List.length (history s) = 10%nat ->
       pushHistory entry (history s) = entry :: removelast (history s))) /\
  (let after := history (run P elevenSquares initialState) in
   List.length after = 10%nat /\
   nth_error after 0 = Some {| expression := "x²(11)"; result := "121" |} /\
   nth_error after 9 = Some {| expression := "x²(2)"; result := "4" |}).
Proof.
  intros H. split; [now apply reachable_history_length|].
  split; [intros ev; apply dispatch_history|].
  split.
  - intros entry. split; [reflexivity|].
    split; [apply pushHistory_length|].
    split; [apply pushHistory_room | apply pushHistory_full].
  - cbv zeta. repeat split; vm_compute; reflexivity.
Qed.

(** C5. In every reachable state the pending operand and the pending
    operator are both present or both absent. *)
Theorem pending_operand_and_operator_together (s : State) :
  reachable P s ->
  (exists v op, previousValue s = Some v /\ operation s = Some op) \/
  (previousValue s = None /\ operation s = None).
Proof.
  intros H.
  assert (pendingPair s) as [v o H1 H2|H1 H2].
  { induction H as [|ev s _ IH].
    - now apply pending_neither.
    - now apply dispatch_pendingPair. }
  - left. now exists v, (operatorText o).
  - right. now split.
Qed.

(** C2 (as the code has it). A failing operation sets the error flag, shows
    the error text and leaves the history as it was. When it is the pending
    binary operation that fails, in [handleOperation] or [handleEquals], the
    pending operand and operator are cleared; when it is a scientific
    function, they are left exactly as they were. Division by zero, the
    square root of a negative number, the factorial of a negative number or
    of a number that is not an integer, and the reciprocal of zero fail. *)
Theorem failing_operation_enters_error (s : State) :
  (forall next previous op message,
      previousValue s = Some previous -> operation s = Some op ->
      op <> EmptyString ->
      calculate P (if truthy previous then previous else zero)
        (parseFloat (display s)) op = Throw message ->
      let s' := handleOperation P next s in
      isError s' = true /\ display s' = "Error" /\
      history s' = history s /\
      previousValue s' = None /\ operation s' = None) /\
  (forall previous op message,
      previousValue s = Some previous -> operation s = Some op ->
      op <> EmptyString ->
      calculate P previous (parseFloat (display s)) op = Throw message ->
      let s' := handleEquals P s in
      isError s' = true /\ display s' = "Error" /\
      history s' = history s /\
      previousValue s' = None /\ operation s' = None) /\
  (forall func message,
      scientificValue P func (parseFloat (display s)) = Throw message ->
      let s' := handleScientific P func s in
      isError s' = true /\ display s' = "Error" /\
      history s' = history s /\
      previousValue s' = previousValue s /\ operation s' = operation s) /\
  (forall a b, strictEq b zero = true ->
      calculate P a b "/" = Throw "Division by zero") /\
  (forall x, lt x zero = true ->
      scientificValue P "sqrt" x = Throw "Invalid input") /\
  (forall x, lt x zero = true \/ isInteger x = false ->
      scientificValue P "!" x = Throw "Invalid input") /\
  (forall x, strictEq x zero = true ->
      scientificValue P "1/x" x = Throw "Division by zero").
Proof.
  assert (Hset : forall op,
             op <> EmptyString -> truthyOperation (Some op) = Some op).
  { intros op Hop. cbn [truthyOperation].
    destruct (String.eqb_spec op EmptyString); [contradiction|].
    reflexivity. }
  repeat apply conj.
  - intros next previous op message Hp Ho Hop Hc. cbv zeta.
    unfold handleOperation. rewrite Hp, Ho, (Hset op Hop), Hc.
    repeat split.
  - intros previous op message Hp Ho Hop Hc. cbv zeta.
    unfold handleEquals. rewrite Hp, Ho, (Hset op Hop), Hc.
    repeat split.
  - intros func message Hc. cbv zeta.
    unfold handleScientific. rewrite Hc. repeat split.
  - intros a b Hb. unfold calculate. cbn. now rewrite Hb.
  - intros x Hx. unfold scientificValue. cbn. now rewrite Hx.
  - intros x Hx. unfold scientificValue. cbn.
    destruct Hx as [Hx|Hx]; rewrite Hx; [reflexivity|].
    now rewrite orb_true_r.
  - intros x Hx. unfold scientificValue. cbn. now rewrite Hx.
Qed.

(** C6. [handleDecimal] is idempotent on the display: pressing the decimal
    point twice in a row shows what pressing it once shows, in every state.
    After one press the display contains a point; and where the display
    contains a point during plain entry (no error, no new entry awaited) a
    press changes nothing at all. *)
Theorem handleDecimal_idempotent (s : State) :
  display (handleDecimal (handleDecimal s)) = display (handleDecimal s) /\
  indexOf (display (handleDecimal s)) "." <> -1 /\
  (indexOf (display s) "." <> -1 ->
   isError s = false -> waitingForNewValue s = false ->
   handleDecimal s = s).
Proof.
  repeat apply conj.
  - destruct s as [d pv op w m h sh e]. unfold handleDecimal.
    cbn [isError waitingForNewValue display setDisplay setIsError
         setWaitingForNewValue].
    destruct e, w; try reflexivity.
    destruct (indexOf d "." =? -1) eqn:Hi;
      cbn [isError waitingForNewValue display setDisplay];
      now rewrite ?indexOf_dot_append, ?Hi.
  - unfold handleDecimal.
    destruct (isError s); [discriminate|].
    destruct (waitingForNewValue s); [discriminate|].
    destruct (indexOf (display s) "." =? -1) eqn:Hi.
    + cbn [display setDisplay]. apply Z.eqb_neq, indexOf_dot_append.
    + now apply Z.eqb_neq.
  - intros Hi He Hw. unfold handleDecimal. rewrite He, Hw.
    apply Z.eqb_neq in Hi. now rewrite Hi.
Qed.

(** C7. In every state, and so in every reachable one, [handleAllClear]
    leaves the display at "0", no pending operand or operator, both flags
    cleared, the memory at 0 and the history empty; [handleClear] resets the
    display, the pending operation and the flags alike and leaves the memory
    and the history exactly as they were. *)
Theorem allClear_and_clear (s : State) :
  handleAllClear s =
    {| display := "0"; previousValue := None; operation := None;
       waitingForNewValue := false; memory := zero; history := [];
       showHistory := showHistory s; isError := false |} /\
  handleClear s =
    {| display := "0"; previousValue := None; operation := None;
       waitingForNewValue := false; memory := memory s;
       history := history s;
       showHistory := showHistory s; isError := false |} /\
  dispatch P AllClearEv s = handleAllClear s /\
  dispatch P ClearEv s = handleClear s.
Proof. repeat split. Qed.

(** C8. With 5 on the display (and room for five nested calls) the
    factorial shows 120 and puts the entry "!(5)" = "120" at the head of the
    history; with -1 or 2.5 on the display it sets the error flag and leaves
    the history as it was. *)
Theorem factorial_of_display (s : State) :
  (5 <= callStackSize P)%nat ->
  (display s = "5" ->
   let s' := handleScientific P "!" s in
   display s' = "120" /\
   history s' =
     pushHistory {| expression := "!(5)"; result := "120" |} (history s) /\
   nth_error (history s') 0 =
     Some {| expression := "!(5)"; result := "120" |} /\
   isError s' = isError s) /\
  (display s = "-1" \/ display s = "2.5" ->
   let s' := handleScientific P "!" s in
   isError s' = true /\ display s' = "Error" /\ history s' = history s).
Proof.
  intros Hdepth. split.
  - intros Hd. cbv zeta.
    assert (scientificValue P "!" (parseFloat "5") = Normal (Some (ofZ 120)))
      as E.
    { unfold scientificValue.
      destruct (callStackSize P) as [|[|[|[|[|n]]]]]; try lia.
      vm_compute. reflexivity. }
    unfold handleScientific. rewrite Hd, E.
    assert (toString (ofZ 120) = "120") as -> by (vm_compute; reflexivity).
    assert (toString (parseFloat "5") = "5") as -> by (vm_compute; reflexivity).
    repeat split.
  - intros Hd. cbv zeta.
    assert (scientificValue P "!" (parseFloat (display s))
            = Throw "Invalid input") as E.
    { destruct Hd as [-> | ->]; unfold scientificValue; vm_compute;
        reflexivity. }
    unfold handleScientific. rewrite E. repeat split.
Qed.

(** C9. In every state, and so in every reachable one, the five memory keys
    leave the pending operand, the pending operator, the history and the
    error flag as they were. MC sets the memory to 0; MR shows the memory and
    awaits a new entry, keeping the memory; MS stores the value of the
    display; M+ and M- add it to and subtract it from the memory. With 42 on
    the display, MS then MC then MR shows "0" (MS then MR shows "42"). *)
Theorem memory_operations (s : State) :
  (forall m, let s' := handleMemory (memoryText m) s in
     previousValue s' = previousValue s /\ operation s' = operation s /\
     history s' = history s /\ isError s' = isError s /\
     dispatch P (MemoryEv m) s = s') /\
  handleMemory "MC" s = setMemory zero s /\
  handleMemory "MR" s =
    setWaitingForNewValue true (setDisplay (toString (memory s)) s) /\
  handleMemory "MS" s = setMemory (parseFloat (display s)) s /\
  handleMemory "M+" s =
    setMemory (add (memory s) (parseFloat (display s))) s /\
  handleMemory "M-" s =
    setMemory (sub (memory s) (parseFloat (display s))) s /\
  (display s = "42" ->
   memory (handleMemory "MS" s) = ofZ 42 /\
   display (handleMemory "MR" (handleMemory "MS" s)) = "42" /\
   display (handleMemory "MR" (handleMemory "MC" (handleMemory "MS" s)))
     = "0").
Proof.
  repeat apply conj; try reflexivity.
  - intros m. destruct m; repeat split.
  - intros Hd. unfold handleMemory at 1 3. cbn [String.eqb Ascii.eqb Bool.eqb].
    rewrite Hd. repeat split; vm_compute; reflexivity.
Qed.

(** C10. A scientific function that succeeds, whichever of sin, cos, tan,
    log, ln, sqrt, factorial, reciprocal, square, pi and e it is, shows its
    result and leaves the pending operand and the pending operator exactly
    as they were. *)
Theorem scientific_success_keeps_pending (func : string) (s : State)
    (r : number) :
  scientificValue P func (parseFloat (display s)) = Normal (Some r) ->
  let s' := handleScientific P func s in
  previousValue s' = previousValue s /\ operation s' = operation s /\
  display s' = toString r /\ waitingForNewValue s' = true.
Proof.
  intros H. cbv zeta. unfold handleScientific. rewrite H. repeat split.
Qed.

End Properties.

(** ** Further properties of the handlers *)

(** *** Strings *)

Lemma append_assoc (a b c : string) : (a ++ b) ++ c = a ++ (b ++ c).
Proof. induction a as [|x a IH]; cbn; [reflexivity | now rewrite IH]. Qed.

Lemma append_empty_r (a : string) : a ++ EmptyString = a.
Proof. induction a as [|x a IH]; cbn; [reflexivity | now rewrite IH]. Qed.

Lemma append_not_zero (a b : string) :
  a <> EmptyString -> a <> "0" -> a ++ b <> "0".
Proof.
  destruct a as [|x [|y a]]; cbn; intros H0 H1 E; congruence.
Qed.

Lemma append_not_empty (a b : string) : a <> EmptyString -> a ++ b <> EmptyString.
Proof. destruct a; cbn; congruence. Qed.

Lemma digitText_single (d : Digit) : exists c, digitText d = String c EmptyString.
Proof. destruct d; eexists; reflexivity. Qed.

Lemma length_append (a b : string) :
  String.length (a ++ b) = (String.length a + String.length b)%nat.
Proof. induction a as [|x a IH]; cbn; [reflexivity | now rewrite IH]. Qed.

Lemma substring_prefix (a b : string) :
  String.substring 0 (String.length a) (a ++ b) = a.
Proof.
  induction a as [|x a IH]; cbn; [now destruct b | now rewrite IH].
Qed.

Lemma dropLast_append_char (a : string) (c : ascii) :
  dropLast (a ++ String c EmptyString) = a.
Proof.
  unfold dropLast. rewrite length_append. cbn [String.length].
  replace (String.length a + 1 - 1)%nat with (String.length a) by lia.
  apply substring_prefix.
Qed.

Lemma append_char_length (a : string) (c : ascii) :
  (1 < String.length (a ++ String c EmptyString))%nat <-> a <> EmptyString.
Proof.
  rewrite length_append. cbn [String.length].
  destruct a; cbn; split; try lia; congruence.
Qed.

Lemma dropLast_last (s : string) :
  (1 < String.length s)%nat ->
  exists c, s = dropLast s ++ String c EmptyString /\
            dropLast s <> EmptyString.
Proof.
  induction s as [|x s IH]; cbn; [lia|]. intros H.
  destruct s as [|y s]; [cbn in H; lia|].
  destruct s as [|z s].
  - exists y. split; [reflexivity | discriminate].
  - destruct IH as (c & E & _); [cbn; lia|]. exists c. split.
    + unfold dropLast in *. cbn in *. now rewrite <- E.
    + discriminate.
Qed.

(** *** The text of a number *)

Lemma countChar_append (c : ascii) (a b : string) :
  countChar c (a ++ b) = (countChar c a + countChar c b)%nat.
Proof. induction a as [|x a IH]; cbn; [reflexivity | rewrite IH; lia]. Qed.

Lemma countChar_substring (c : ascii) (s : string) (n m : nat) :
  (countChar c (String.substring n m s) <= countChar c s)%nat.
Proof.
  revert n m. induction s as [|x s IH]; intros [|n] [|m]; cbn; try lia.
  - specialize (IH 0%nat m). lia.
  - specialize (IH n 0%nat). lia.
  - specialize (IH n (S m)). lia.
Qed.

Lemma digits_no_point (u : Decimal.uint) :
  countChar "." (NilEmpty.string_of_uint u) = 0%nat.
Proof. induction u; cbn; auto. Qed.

Lemma decimalOfZ_no_point (z : Z) : countChar "." (decimalOfZ z) = 0%nat.
Proof.
  unfold decimalOfZ, NilZero.string_of_uint.
  destruct (N.to_uint (Z.to_N z)); try apply digits_no_point. reflexivity.
Qed.

Lemma decimalOfZ_not_empty (z : Z) : decimalOfZ z <> EmptyString.
Proof.
  unfold decimalOfZ, NilZero.string_of_uint.
  destruct (N.to_uint (Z.to_N z)); discriminate.
Qed.

Lemma zeros_no_point (n : nat) : countChar "." (zeros n) = 0%nat.
Proof. induction n; cbn; auto. Qed.

Lemma formatDigits_points (s n : Z) :
  (countChar "." (formatDigits s n) <= 1)%nat.
Proof.
  unfold formatDigits, substringZ. cbv zeta.
  pose proof (decimalOfZ_no_point s) as Hd.
  pose proof (fun a b => countChar_substring "." (decimalOfZ s) a b) as Hs.
  repeat match goal with
    | |- context [if ?b then _ else _] => destruct b
    end;
    repeat rewrite countChar_append;
    rewrite ?zeros_no_point, ?decimalOfZ_no_point; cbn [countChar Ascii.eqb Bool.eqb];
    repeat match goal with
      | |- context [countChar "." (String.substring ?a ?b (decimalOfZ s))] =>
          let H := fresh in
          pose proof (Hs a b) as H;
          generalize dependent (countChar "." (String.substring a b (decimalOfZ s)));
          intros
      end; lia.
Qed.

Lemma formatDigits_not_empty (s n : Z) : formatDigits s n <> EmptyString.
Proof.
  unfold formatDigits. cbv zeta.
  pose proof (decimalOfZ_not_empty s) as Hd.
  repeat match goal with
    | |- context [if ?b then _ else _] => destruct b
    end;
    try (destruct (decimalOfZ s); [contradiction | discriminate]);
    try discriminate;
    match goal with
    | |- ?a ++ _ <> _ => destruct a; discriminate
    end.
Qed.

Lemma toString_points (x : number) : (countChar "." (toString x) <= 1)%nat.
Proof.
  destruct x as [sg|sg| |sg m e]; cbn [toString].
  - cbn; lia.
  - destruct sg; cbn; lia.
  - cbn; lia.
  - destruct (shortestDigits 17 m e (decimalExponent m e) 1) as [d n].
    rewrite countChar_append. pose proof (formatDigits_points d n).
    destruct sg; cbn [countChar Ascii.eqb Bool.eqb]; lia.
Qed.

Lemma toString_not_empty (x : number) : toString x <> EmptyString.
Proof.
  destruct x as [sg|sg| |sg m e]; cbn [toString]; try discriminate.
  - destruct sg; discriminate.
  - destruct (shortestDigits 17 m e (decimalExponent m e) 1) as [d n].
    pose proof (formatDigits_not_empty d n).
    destruct sg; [discriminate|]. assumption.
Qed.

Lemma index_none_no_point (s : string) :
  String.index 0 "." s = None -> countChar "." s = 0%nat.
Proof.
  induction s as [|c s IH]; [reflexivity|].
  cbn [String.index String.prefix countChar].
  destruct (Ascii.ascii_dec "." c) as [<-|Hc].
  - destruct s; discriminate.
  - destruct (String.index 0 "." s); [discriminate|]. intros _.
    rewrite IH by reflexivity.
    destruct (Ascii.eqb_spec c "."); [congruence | reflexivity].
Qed.

Lemma toString_wellFormed (x : number) : wellFormedText (toString x).
Proof. split; [apply toString_not_empty | apply toString_points]. Qed.

Lemma digitText_wellFormed (d : Digit) : wellFormedText (digitText d).
Proof. destruct d; split; try discriminate; cbn; lia. Qed.

Lemma append_digit_wellFormed (t : string) (d : Digit) :
  wellFormedText t -> wellFormedText (t ++ digitText d).
Proof.
  intros [H0 H1]. split; [now apply append_not_empty|].
  rewrite countChar_append. destruct d; cbn; lia.
Qed.

Lemma textInvariant_step (s s' : State) :
  textInvariant s ->
  wellFormedText (display s') ->
  (history s' = history s \/ history s' = [] \/
   exists entry, wellFormedText (result entry) /\
                 history s' = pushHistory entry (history s)) ->
  textInvariant s'.
Proof.
  intros [_ Hh] Hd [E|[E|(entry & He & E)]]; split; try assumption;
    rewrite E; [assumption | constructor |].
  unfold pushHistory. constructor; [assumption|].
  rewrite <- (firstn_skipn 9 (history s)) in Hh.
  now apply Forall_app in Hh.
Qed.

Lemma no_point_index_none (s : string) :
  countChar "." s = 0%nat -> String.index 0 "." s = None.
Proof.
  induction s as [|c s IH]; [reflexivity|].
  cbn [String.index String.prefix countChar].
  destruct (Ascii.eqb_spec c ".") as [->|Hc]; [discriminate|].
  intros H. destruct (Ascii.ascii_dec "." c) as [<-|_]; [contradiction|].
  now rewrite IH.
Qed.

Lemma digitsText_no_point (ds : list Digit) :
  countChar "." (digitsText ds) = 0%nat.
Proof.
  induction ds as [|d ds IH]; [reflexivity|].
  cbn [digitsText]. rewrite countChar_append, IH. now destruct d.
Qed.

Lemma typedNumber_no_point (ds : list Digit) :
  countChar "." (typedNumber ds) = 0%nat.
Proof.
  unfold typedNumber. destruct (dropZeros ds); [reflexivity|].
  apply digitsText_no_point.
Qed.

Section Further.

Variable P : Platform.

(** *** Digit entry *)

(** X2. A digit entry leaves both flags cleared and does not touch the
    pending operation, the memory or the history. What it shows does not
    depend on the error flag: the digit alone when a new entry was awaited or
    the display was "0", and else the former display followed by the
    digit. *)
Theorem handleNumber_effect (num : string) (s : State) :
  handleNumber num s =
    setIsError false
      (setWaitingForNewValue false
         (setDisplay
            (if waitingForNewValue s then num
             else if (display s =? "0")%string then num
                  else display s ++ num) s)) /\
  display (handleNumber num s) =
    display (handleNumber num (setIsError false s)).
Proof.
  destruct s as [d pv op w m h sh e].
  unfold handleNumber.
  cbn [isError waitingForNewValue display setDisplay setIsError
       setWaitingForNewValue previousValue operation memory history
       showHistory].
  destruct e, w; split; reflexivity.
Qed.

Lemma run_cons (ev : Event) (evs : list Event) (s : State) :
  run P (ev :: evs) s = run P evs (dispatch P ev s).
Proof. reflexivity. Qed.

Lemma typing_after (ds : list Digit) (s : State) :
  waitingForNewValue s = false ->
  display s <> EmptyString -> display s <> "0" ->
  display (run P (map NumberEv ds) s) = display s ++ digitsText ds.
Proof.
  revert s. induction ds as [|d ds IH]; intros s Hw H0 H1.
  - cbn. now rewrite append_empty_r.
  - cbn [map]. rewrite run_cons. cbn [dispatch].
    destruct (handleNumber_effect (digitText d) s) as [E _].
    rewrite Hw in E.
    destruct (String.eqb_spec (display s) "0") as [|_]; [contradiction|].
    rewrite IH; rewrite E; cbn [display waitingForNewValue setDisplay
      setIsError setWaitingForNewValue]; try reflexivity.
    + cbn [digitsText]. now rewrite append_assoc.
    + now apply append_not_empty.
    + now apply append_not_zero.
Qed.

(** X1. Digits typed on a display that shows "0", with no new entry
    awaited, show the number typed with its leading zeros collapsed; so from
    the initial state 0, 0, 5 shows "5". *)
Theorem typing_collapses_leading_zeros (ds : list Digit) (s : State) :
  waitingForNewValue s = false -> display s = "0" ->
  display (run P (map NumberEv ds) s) = typedNumber ds.
Proof.
  revert s. induction ds as [|d ds IH]; intros s Hw H0; [exact H0|].
  cbn [map]. rewrite run_cons. cbn [dispatch].
  destruct (handleNumber_effect (digitText d) s) as [E _].
  rewrite Hw, H0 in E. cbn [String.eqb Ascii.eqb Bool.eqb] in E.
  destruct d;
    try (rewrite typing_after; rewrite E;
         [reflexivity | reflexivity | discriminate | discriminate]).
  unfold typedNumber. cbn [dropZeros]. fold (typedNumber ds).
  apply IH; rewrite E; reflexivity.
Qed.

(** *** Backspace *)

(** X3. Backspace undoes a digit: on a display that is not empty, with no
    error and no new entry awaited, a digit followed by backspace gives the
    state back. *)
Theorem backspace_undoes_digit (d : Digit) (s : State) :
  isError s = false -> waitingForNewValue s = false ->
  display s <> EmptyString ->
  handleBackspace (handleNumber (digitText d) s) = s.
Proof.
  intros He Hw H0.
  destruct (handleNumber_effect (digitText d) s) as [E _]. rewrite E, Hw.
  destruct s as [dsp pv op w m h sh e]. cbn in He, Hw, H0. subst e w.
  destruct (digitText_single d) as [c Hc]. rewrite Hc.
  unfold handleBackspace.
  cbn [isError waitingForNewValue display setDisplay setIsError
       setWaitingForNewValue previousValue operation memory history
       showHistory].
  destruct (String.eqb_spec dsp "0") as [->|Hz].
  - reflexivity.
  - destruct (Nat.ltb_spec 1 (String.length (dsp ++ String c EmptyString)))
      as [_|Hl].
    + now rewrite dropLast_append_char.
    + apply (append_char_length dsp c) in H0. lia.
Qed.

(** X4. Backspace changes the display only, and never empties it: a display
    of more than one character loses its last character, any other display
    becomes "0". The error flag is not cleared. *)
Theorem handleBackspace_effect (s : State) :
  handleBackspace s = setDisplay (display (handleBackspace s)) s /\
  display (handleBackspace s) <> EmptyString /\
  ((1 < String.length (display s))%nat ->
   exists c, display s = display (handleBackspace s) ++ String c EmptyString) /\
  ((String.length (display s) <= 1)%nat -> display (handleBackspace s) = "0").
Proof.
  unfold handleBackspace.
  destruct (Nat.ltb_spec 1 (String.length (display s))) as [Hl|Hl].
  - destruct (dropLast_last _ Hl) as (c & E & N).
    repeat split; cbn [display setDisplay]; try assumption.
    + intros _. now exists c.
    + lia.
  - repeat split; cbn [display setDisplay]; try discriminate; lia.
Qed.

(** *** The equals key and [calculate] *)

(** X5. The equals key is idempotent: pressed again at once it changes
    nothing, since the first press leaves no operation pending. *)
Theorem handleEquals_idempotent (s : State) :
  handleEquals P (handleEquals P s) = handleEquals P s.
Proof.
  unfold handleEquals at 2 3.
  destruct (previousValue s) as [previous|] eqn:Hp.
  - destruct (truthyOperation (operation s)) as [op|] eqn:Ho.
    + destruct (calculate P previous _ op); reflexivity.
    + unfold handleEquals. now rewrite Hp, Ho.
  - unfold handleEquals. now rewrite Hp.
Qed.

(** X6. [calculate] throws in one case only, a division whose divisor is a
    zero of either sign, and the message is then 'Division by zero'; a
    divisor that is NaN does not throw. *)
Theorem calculate_throws_iff (a b : number) (op message : string) :
  (calculate P a b op = Throw message <->
   op = "/" /\ (exists sign, b = S754_zero sign) /\
   message = "Division by zero") /\
  calculate P a NaN "/" = Normal NaN.
Proof.
  split; [|destruct a; reflexivity].
  assert (strictEq b zero = true <-> exists sign, b = S754_zero sign) as Hz.
  { split.
    - destruct b as [sg|sg| |sg m e]; cbn; try discriminate.
      + intros _. now exists sg.
      + destruct sg; discriminate.
      + destruct sg; discriminate.
    - intros [sg ->]. reflexivity. }
  unfold calculate. split.
  - repeat match goal with
      | |- context [String.eqb ?x ?y] => destruct (String.eqb_spec x y)
      end; try discriminate.
    destruct (strictEq b zero) eqn:Hb; [|discriminate].
    intros [= <-]. repeat split; [assumption | now apply Hz].
  - intros (-> & Hb & ->). apply Hz in Hb. cbn. now rewrite Hb.
Qed.

(** X7. A pending operand that is falsy (NaN or a zero) is taken as 0 when
    a further operator resolves the pending operation, whereas the equals key
    takes it as it is: with NaN and + pending, the equals key shows "NaN". *)
Theorem falsy_operand_taken_as_zero (next : string) (v : number) (s : State) :
  previousValue s = Some v -> truthy v = false ->
  truthyOperation (operation s) <> None ->
  handleOperation P next s
    = handleOperation P next (setPreviousValue (Some zero) s) /\
  (v = NaN -> operation s = Some "+" ->
   display (handleEquals P s) = "NaN").
Proof.
  intros Hp Hv Ho. split.
  - unfold handleOperation.
    cbn [previousValue operation display setPreviousValue]. rewrite Hp.
    destruct (truthyOperation (operation s)) as [op|]; [|contradiction].
    rewrite Hv. cbn [truthy zero].
    destruct (calculate P zero _ op); reflexivity.
  - intros -> Hplus. unfold handleEquals. rewrite Hp, Hplus. reflexivity.
Qed.

(** *** The error flag *)

(** X8. Only a digit, the decimal point, C and AC clear the error flag, and
    they always do; after any other event a set error flag is still set. *)
Theorem error_left_by_entry_or_reset (ev : Event) (s : State) :
  (clearsError ev = true -> isError (dispatch P ev s) = false) /\
  (clearsError ev = false -> isError s = true ->
   isError (dispatch P ev s) = true).
Proof.
  split.
  - destruct ev; try discriminate; intros _; cbn [dispatch].
    + now rewrite (proj1 (handleNumber_effect _ s)).
    + unfold handleDecimal.
      destruct (isError s) eqn:He; [reflexivity|].
      destruct (waitingForNewValue s); [exact He|].
      destruct (indexOf (display s) "." =? -1); exact He.
    + reflexivity.
    + reflexivity.
  - destruct ev; try discriminate; intros _ He; cbn [dispatch].
    + unfold handleOperation.
      destruct (previousValue s); [|exact He].
      destruct (truthyOperation (operation s)); [|exact He].
      destruct (calculate P _ _ _); [exact He | reflexivity].
    + unfold handleEquals.
      destruct (previousValue s); [|exact He].
      destruct (truthyOperation (operation s)); [|exact He].
      destruct (calculate P _ _ _); [exact He | reflexivity].
    + unfold handleScientific.
      destruct (scientificValue P _ _) as [[r|]|e];
        [exact He | exact He | reflexivity].
    + destruct m; exact He.
    + unfold handleBackspace.
      destruct (1 <? String.length (display s))%nat; exact He.
    + exact He.
    + destruct (showHistory s); exact He.
    + destruct (showHistory s), (nth_error (history s) index); exact He.
Qed.

(** X9. The error flag is set only by an operator or the equals key whose
    pending operation throws, or by a scientific function that throws; the
    display is then "Error" and the history is as it was. *)
Theorem error_entered_only_by_throw (ev : Event) (s : State) :
  isError s = false -> isError (dispatch P ev s) = true ->
  display (dispatch P ev s) = "Error" /\
  history (dispatch P ev s) = history s /\
  ((exists o previous op message,
       ev = OperationEv o /\
       previousValue s = Some previous /\
       truthyOperation (operation s) = Some op /\
       calculate P (if truthy previous then previous else zero)
         (parseFloat (display s)) op = Throw message) \/
   (exists previous op message,
       ev = EqualsEv /\
       previousValue s = Some previous /\
       truthyOperation (operation s) = Some op /\
       calculate P previous (parseFloat (display s)) op = Throw message) \/
   (exists f message,
       ev = ScientificEv f /\
       scientificValue P (scientificText f) (parseFloat (display s))
         = Throw message)).
Proof.
  intros He.
  destruct ev;
    match goal with
    | |- isError (dispatch P ?e s) = true -> _ =>
        try (rewrite (proj1 (error_left_by_entry_or_reset e s) eq_refl);
             discriminate)
    end; cbn [dispatch].
  - unfold handleOperation.
    destruct (previousValue s) as [previous|]; [|intros H; cbn in H; congruence].
    destruct (truthyOperation (operation s)) as [op|];
      [|intros H; cbn in H; congruence].
    destruct (calculate P _ _ op) as [v|message] eqn:Hc;
      [intros H; cbn in H; congruence|].
    intros _. repeat split. left. now exists o, previous, op, message.
  - unfold handleEquals.
    destruct (previousValue s) as [previous|]; [|congruence].
    destruct (truthyOperation (operation s)) as [op|]; [|congruence].
    destruct (calculate P _ _ op) as [v|message] eqn:Hc;
      [intros H; cbn in H; congruence|].
    intros _. repeat split. right. left. now exists previous, op, message.
  - unfold handleScientific.
    destruct (scientificValue P _ _) as [[r|]|message] eqn:Hc;
      [intros H; cbn in H; congruence | congruence |].
    intros _. repeat split. right. right. now exists f, message.
  - destruct m; intros H; cbn in H; congruence.
  - unfold handleBackspace.
    destruct (1 <? String.length (display s))%nat; intros H; cbn in H;
      congruence.
  - intros H; cbn in H; congruence.
  - destruct (showHistory s); intros H; cbn in H; congruence.
  - destruct (showHistory s), (nth_error (history s) index);
      intros H; cbn in H; congruence.
Qed.

(** *** Memory and history *)

(** X10. The memory is written only by MC, MS, M+, M- and AC: every other
    event, MR and C among them, leaves it as it was. *)
Theorem memory_kept_by_other_events (ev : Event) (s : State) :
  writesMemory ev = false -> memory (dispatch P ev s) = memory s.
Proof.
  destruct ev as [d| |o| |f| | |m| | | |index]; try destruct m;
    try discriminate; intros _; cbn [dispatch].
  - now rewrite (proj1 (handleNumber_effect _ s)).
  - unfold handleDecimal.
    destruct (isError s), (waitingForNewValue s),
      (indexOf (display s) "." =? -1); reflexivity.
  - unfold handleOperation.
    destruct (previousValue s); [|reflexivity].
    destruct (truthyOperation (operation s)); [|reflexivity].
    destruct (calculate P _ _ _); reflexivity.
  - unfold handleEquals.
    destruct (previousValue s); [|reflexivity].
    destruct (truthyOperation (operation s)); [|reflexivity].
    destruct (calculate P _ _ _); reflexivity.
  - unfold handleScientific.
    destruct (scientificValue P _ _) as [[r|]|e]; reflexivity.
  - reflexivity.
  - reflexivity.
  - unfold handleBackspace.
    destruct (1 <? String.length (display s))%nat; reflexivity.
  - reflexivity.
  - destruct (showHistory s); reflexivity.
  - destruct (showHistory s), (nth_error (history s) index); reflexivity.
Qed.

(** X11. Whenever an event changes the history without emptying it, it has
    pushed one entry, the display shows the result of that entry and a new
    entry is awaited; recalling the newest entry from the history panel then
    leaves the display as it is. *)
Theorem recorded_result_is_displayed (ev : Event) (s : State) :
  history (dispatch P ev s) <> history s ->
  history (dispatch P ev s) <> [] ->
  exists entry,
    history (dispatch P ev s) = pushHistory entry (history s) /\
    display (dispatch P ev s) = result entry /\
    waitingForNewValue (dispatch P ev s) = true /\
    (showHistory (dispatch P ev s) = true ->
     display (dispatch P (RecallEv 0) (dispatch P ev s))
       = display (dispatch P ev s)).
Proof.
  assert (forall s' entry,
             history s' = pushHistory entry (history s) ->
             display s' = result entry ->
             waitingForNewValue s' = true ->
             exists entry,
               history s' = pushHistory entry (history s) /\
               display s' = result entry /\
               waitingForNewValue s' = true /\
               (showHistory s' = true ->
                display (dispatch P (RecallEv 0) s') = display s')) as Push.
  { intros s' entry Hh Hd Hw. exists entry. repeat split; try assumption.
    intros Hs. cbn [dispatch]. rewrite Hs, Hh. cbn. now rewrite Hd. }
  destruct ev; cbn [dispatch].
  - rewrite handleNumber_history. congruence.
  - rewrite handleDecimal_history. congruence.
  - unfold handleOperation.
    destruct (previousValue s); [|cbn; congruence].
    destruct (truthyOperation (operation s)); [|cbn; congruence].
    destruct (calculate P _ _ _); [|cbn; congruence].
    intros _ _. eapply Push; reflexivity.
  - unfold handleEquals.
    destruct (previousValue s); [|congruence].
    destruct (truthyOperation (operation s)); [|congruence].
    destruct (calculate P _ _ _); [|cbn; congruence].
    intros _ _. eapply Push; reflexivity.
  - unfold handleScientific.
    destruct (scientificValue P _ _) as [[r|]|e];
      [|congruence|cbn; congruence].
    intros _ _. eapply Push; reflexivity.
  - cbn. congruence.
  - cbn. congruence.
  - rewrite handleMemory_history. congruence.
  - rewrite handleBackspace_history. congruence.
  - cbn. congruence.
  - destruct (showHistory s); cbn; congruence.
  - destruct (showHistory s), (nth_error (history s) index); cbn;
      congruence.
Qed.

(** *** The pending operator *)

Lemma reachable_pendingPair (s : State) : reachable P s -> pendingPair s.
Proof.
  induction 1 as [|ev s _ IH].
  - now apply pending_neither.
  - now apply dispatch_pendingPair.
Qed.

(** X12. In every reachable state a pending operator is one of +, -, *, /
    and ^, it is truthy and it comes with an operand: the default case of
    [calculate] and the branch of [handleOperation] for a falsy operator are
    never taken. *)
Theorem pending_operator_is_a_key (s : State) (op : string) :
  reachable P s -> operation s = Some op ->
  In op ["+"; "-"; "*"; "/"; "^"] /\
  truthyOperation (operation s) = Some op /\
  exists v, previousValue s = Some v.
Proof.
  intros H Ho.
  destruct (reachable_pendingPair s H) as [v o Hv Hop|_ Hn]; [|congruence].
  assert (op = operatorText o) as -> by congruence.
  rewrite Hop. repeat split.
  - destruct o; cbn; tauto.
  - destruct o; reflexivity.
  - now exists v.
Qed.

(** *** The keyboard *)

(** X13. The keys that the listener handles do what the buttons do: the ten
    digits, the decimal point, the four operators, Enter and = for the
    equals button, Escape for C and Backspace. Any other key that is not
    between "0" and "9" as a string changes nothing, the key ^ among them, so
    that the power is on the buttons only. *)
Theorem keyboard_as_buttons (s : State) :
  (forall d, handleKeyPress P (digitText d) s = dispatch P (NumberEv d) s) /\
  handleKeyPress P "." s = dispatch P DecimalEv s /\
  (forall o, o <> Power ->
     handleKeyPress P (operatorText o) s = dispatch P (OperationEv o) s) /\
  handleKeyPress P "Enter" s = dispatch P EqualsEv s /\
  handleKeyPress P "=" s = dispatch P EqualsEv s /\
  handleKeyPress P "Escape" s = dispatch P ClearEv s /\
  handleKeyPress P "Backspace" s = dispatch P BackspaceEv s /\
  handleKeyPress P "^" s = s /\
  (forall key,
     String.leb "0" key && String.leb key "9" = false ->
     ~ In key ["."; "+"; "-"; "*"; "/"; "Enter"; "="; "Escape"; "Backspace"] ->
     handleKeyPress P key s = s).
Proof.
  repeat apply conj; try reflexivity.
  - intros d. destruct d; reflexivity.
  - intros o Ho. destruct o; try reflexivity. contradiction.
  - intros key Hd Hn. unfold handleKeyPress. rewrite Hd.
    cbn [existsb In] in *.
    repeat match goal with
      | |- context [String.eqb key ?y] =>
          destruct (String.eqb_spec key y) as [->|?]
      end; cbn [orb]; try reflexivity; exfalso; apply Hn; tauto.
Qed.

(** *** The factorial *)

(** X14. For an integer n from 0 to 22 [factorial] returns n! exactly, in
    max(n, 1) nested calls; with room for fewer calls it ends in the
    [RangeError] of the platform. *)
Theorem factorial_exact_to_22 (n : nat) :
  (n <= 22)%nat ->
  factorial (Nat.max n 1) (ofZ (Z.of_nat n)) = Normal (ofZ (factZ n)) /\
  ((2 <= n)%nat ->
   factorial (n - 1) (ofZ (Z.of_nat n))
     = Throw "Maximum call stack size exceeded").
Proof.
  intros H.
  do 23 (destruct n as [|n];
         [split; [vm_compute; reflexivity
                 | intros H2; first [lia | vm_compute; reflexivity]]|]).
  lia.
Qed.

(** *** Entering a number with a decimal point *)

Lemma run_app (evs evs' : list Event) (s : State) :
  run P (evs ++ evs') s = run P evs' (run P evs s).
Proof. apply fold_left_app. Qed.

Lemma typing_flags (ds : list Digit) (s : State) :
  isError s = false -> waitingForNewValue s = false ->
  isError (run P (map NumberEv ds) s) = false /\
  waitingForNewValue (run P (map NumberEv ds) s) = false.
Proof.
  revert s. induction ds as [|d ds IH]; intros s He Hw; [now split|].
  cbn [map]. rewrite run_cons. cbn [dispatch].
  apply IH; now rewrite (proj1 (handleNumber_effect _ s)).
Qed.

(** X16. On a display that shows "0", with no error and no new entry
    awaited, the digits of an integer part, the decimal point and the digits
    of a fraction show the integer part without its leading zeros, a point
    and the fraction as typed. *)
Theorem typing_decimal_number (ds1 ds2 : list Digit) (s : State) :
  isError s = false -> waitingForNewValue s = false -> display s = "0" ->
  display (run P (map NumberEv ds1 ++ DecimalEv :: map NumberEv ds2) s)
    = typedNumber ds1 ++ "." ++ digitsText ds2.
Proof.
  intros He Hw H0. rewrite run_app, run_cons. cbn [dispatch].
  destruct (typing_flags ds1 s He Hw) as [He1 Hw1].
  pose proof (typing_collapses_leading_zeros ds1 s Hw H0) as Hd.
  set (s1 := run P (map NumberEv ds1) s) in *.
  assert (handleDecimal s1 = setDisplay (typedNumber ds1 ++ ".") s1) as E.
  { unfold handleDecimal, indexOf. rewrite He1, Hw1, Hd.
    now rewrite (no_point_index_none _ (typedNumber_no_point ds1)). }
  rewrite typing_after; rewrite E; cbn [display waitingForNewValue setDisplay].
  - now rewrite append_assoc.
  - exact Hw1.
  - destruct (typedNumber ds1); discriminate.
  - destruct (typedNumber ds1) as [|x [|y r]]; discriminate.
Qed.

(** X17. After the decimal point a digit extends "0." when the point began
    a new entry without error. When the point was pressed in the error state
    the flag that awaits a new entry is left as it was, so that a digit
    pressed next replaces "0." if a new entry was awaited. *)
Theorem decimal_then_digit (d : Digit) (s : State) :
  (isError s = false -> waitingForNewValue s = true ->
   display (handleNumber (digitText d) (handleDecimal s))
     = "0." ++ digitText d) /\
  (isError s = true ->
   waitingForNewValue (handleDecimal s) = waitingForNewValue s /\
   display (handleNumber (digitText d) (handleDecimal s))
     = if waitingForNewValue s then digitText d else "0." ++ digitText d).
Proof.
  split.
  - intros He Hw. unfold handleDecimal. rewrite He, Hw.
    rewrite (proj1 (handleNumber_effect _ _)). reflexivity.
  - intros He. unfold handleDecimal. rewrite He. split; [reflexivity|].
    rewrite (proj1 (handleNumber_effect _ _)).
    cbn [display waitingForNewValue setDisplay setIsError
         setWaitingForNewValue].
    destruct (waitingForNewValue s); reflexivity.
Qed.

(** *** An operator without a second operand *)

(** X18. With nothing pending, an operator followed at once by another
    operator or by the equals key applies the first operator to the
    displayed value and itself: the second key does not replace the first
    operator. *)
Theorem operator_pressed_twice (op1 op2 : string) (s : State) :
  previousValue s = None -> op1 <> EmptyString ->
  let x := parseFloat (display s) in
  display (handleOperation P op2 (handleOperation P op1 s))
    = match calculate P (if truthy x then x else zero) x op1 with
      | Normal v => toString v
      | Throw _ => "Error"
      end /\
  display (handleEquals P (handleOperation P op1 s))
    = match calculate P x x op1 with
      | Normal v => toString v
      | Throw _ => "Error"
      end.
Proof.
  intros Hp Hop. cbv zeta.
  assert (handleOperation P op1 s
          = setOperation (Some op1)
              (setWaitingForNewValue true
                 (setPreviousValue (Some (parseFloat (display s))) s))) as E.
  { unfold handleOperation. now rewrite Hp. }
  rewrite E.
  assert (truthyOperation (Some op1) = Some op1) as Ht.
  { cbn [truthyOperation].
    destruct (String.eqb_spec op1 EmptyString); [contradiction | reflexivity]. }
  split.
  - unfold handleOperation.
    cbn [previousValue operation display setOperation setWaitingForNewValue
         setPreviousValue].
    rewrite Ht. destruct (calculate P _ _ op1); reflexivity.
  - unfold handleEquals.
    cbn [previousValue operation display setOperation setWaitingForNewValue
         setPreviousValue].
    rewrite Ht. destruct (calculate P _ _ op1); reflexivity.
Qed.

(** *** The scientific functions *)

(** X19. A scientific function throws in these cases only: the square root
    of a number below zero, the factorial of a number below zero or not an
    integer, a factorial that exhausts the call stack, and the reciprocal of
    a zero. The logarithms never throw. *)
Theorem scientificValue_throws_iff (func message : string) (x : number) :
  (scientificValue P func x = Throw message <->
   (func = "sqrt" /\ lt x zero = true /\ message = "Invalid input") \/
   (func = "!" /\ (lt x zero = true \/ isInteger x = false) /\
    message = "Invalid input") \/
   (func = "!" /\ lt x zero = false /\ isInteger x = true /\
    factorial (callStackSize P) x = Throw message) \/
   (func = "1/x" /\ strictEq x zero = true /\
    message = "Division by zero")) /\
  scientificValue P "log" x = Normal (Some (Math_log10 P x)) /\
  scientificValue P "ln" x = Normal (Some (Math_log P x)).
Proof.
  split; [|split; reflexivity].
  split.
  - unfold scientificValue.
    repeat match goal with
      | |- context [String.eqb func ?y] =>
          destruct (String.eqb_spec func y) as [->|?]
      end; try discriminate.
    + destruct (lt x zero) eqn:Hl; [|discriminate].
      intros [= <-]. left. now repeat split.
    + destruct (lt x zero) eqn:Hl; cbn [orb].
      * intros [= <-]. right. left. repeat split. now left.
      * destruct (isInteger x) eqn:Hi; cbn [negb].
        -- destruct (factorial (callStackSize P) x) eqn:Hf; [discriminate|].
           intros [= <-]. right. right. left. now repeat split.
        -- intros [= <-]. right. left. repeat split. now right.
    + destruct (strictEq x zero) eqn:Hz; [|discriminate].
      intros [= <-]. right. right. right. now repeat split.
  - intros [(-> & Hl & ->)|[(-> & Hg & ->)|[(-> & Hl & Hi & Hf)|(-> & Hz & ->)]]];
      unfold scientificValue; cbn [String.eqb Ascii.eqb Bool.eqb].
    + now rewrite Hl.
    + destruct Hg as [Hl|Hi]; [now rewrite Hl|].
      rewrite Hi. now rewrite orb_true_r.
    + now rewrite Hl, Hi, Hf.
    + now rewrite Hz.
Qed.

(** *** The display *)

Lemma dispatch_textInvariant (ev : Event) (s : State) :
  textInvariant s -> textInvariant (dispatch P ev s).
Proof.
  intros H. pose proof H as [Hd Hh].
  apply (textInvariant_step s _ H); destruct ev; cbn [dispatch].
  - rewrite (proj1 (handleNumber_effect _ s)). cbn [display setDisplay
      setIsError setWaitingForNewValue].
    destruct (waitingForNewValue s); [apply digitText_wellFormed|].
    destruct (display s =? "0")%string; [apply digitText_wellFormed|].
    now apply append_digit_wellFormed.
  - unfold handleDecimal.
    destruct (isError s); [split; [discriminate | cbn; lia]|].
    destruct (waitingForNewValue s); [split; [discriminate | cbn; lia]|].
    unfold indexOf.
    destruct (String.index 0 "." (display s)) eqn:Hi.
    + destruct (Z.eqb_spec (Z.of_nat n) (-1)); [lia | exact Hd].
    + rewrite Z.eqb_refl. cbn [display setDisplay]. split.
      * apply append_not_empty, Hd.
      * rewrite countChar_append, (index_none_no_point _ Hi). cbn. lia.
  - unfold handleOperation.
    destruct (previousValue s); [|exact Hd].
    destruct (truthyOperation (operation s)); [|exact Hd].
    destruct (calculate P _ _ _);
      [apply toString_wellFormed | split; [discriminate | cbn; lia]].
  - unfold handleEquals.
    destruct (previousValue s); [|exact Hd].
    destruct (truthyOperation (operation s)); [|exact Hd].
    destruct (calculate P _ _ _);
      [apply toString_wellFormed | split; [discriminate | cbn; lia]].
  - unfold handleScientific.
    destruct (scientificValue P _ _) as [[r|]|e];
      [apply toString_wellFormed | exact Hd | split; [discriminate | cbn; lia]].
  - split; [discriminate | cbn; lia].
  - split; [discriminate | cbn; lia].
  - destruct m; try exact Hd. apply toString_wellFormed.
  - destruct (handleBackspace_effect s) as (_ & Hn & Hl & _).
    split; [exact Hn|].
    unfold handleBackspace in *.
    destruct (Nat.ltb_spec 1 (String.length (display s))) as [L|L];
      [|cbn; lia].
    destruct (Hl L) as [c E]. destruct Hd as [_ Hd]. rewrite E in Hd.
    rewrite countChar_append in Hd. lia.
  - exact Hd.
  - destruct (showHistory s); exact Hd.
  - destruct (showHistory s); [|exact Hd].
    destruct (nth_error (history s) index) as [entry|] eqn:Hn; [|exact Hd].
    apply nth_error_In in Hn. rewrite Forall_forall in Hh.
    exact (Hh entry Hn).
  - left. apply handleNumber_history.
  - left. apply handleDecimal_history.
  - unfold handleOperation.
    destruct (previousValue s); [|now left].
    destruct (truthyOperation (operation s)); [|now left].
    destruct (calculate P _ _ _); [|now left].
    right. right. eexists. split; [|reflexivity]. apply toString_wellFormed.
  - unfold handleEquals.
    destruct (previousValue s); [|now left].
    destruct (truthyOperation (operation s)); [|now left].
    destruct (calculate P _ _ _); [|now left].
    right. right. eexists. split; [|reflexivity]. apply toString_wellFormed.
  - unfold handleScientific.
    destruct (scientificValue P _ _) as [[r|]|e]; [|now left|now left].
    right. right. eexists. split; [|reflexivity]. apply toString_wellFormed.
  - now left.
  - right. now left.
  - left. apply handleMemory_history.
  - left. apply handleBackspace_history.
  - now left.
  - destruct (showHistory s); [right|]; now left.
  - destruct (showHistory s), (nth_error (history s) index); now left.
Qed.

(** X15. In every reachable state the display is not empty and contains at
    most one decimal point, and so does the result of every entry of the
    history. *)
Theorem display_well_formed (s : State) :
  reachable P s ->
  display s <> EmptyString /\ (countChar "." (display s) <= 1)%nat /\
  Forall (fun entry => result entry <> EmptyString /\
                       (countChar "." (result entry) <= 1)%nat) (history s).
Proof.
  intros H.
  assert (textInvariant s) as [[H0 H1] Hh].
  { induction H as [|ev s _ IH].
    - split; [split; [discriminate | cbn; lia] | constructor].
    - now apply dispatch_textInvariant. }
  repeat split; assumption.
Qed.

End Further.

(** ** The claims at concrete states *)

(** C2 as stated fails: after 3, -, 5, + the display shows -2 with -2 and +
    pending; the square root then fails and sets the error flag, and the
    pending operand and operator are still there. *)
Lemma failing_sqrt_keeps_pending :
  let s :=
    run plainPlatform
      [NumberEv D3; OperationEv Minus; NumberEv D5; OperationEv Plus]
      initialState in
  let s' := dispatch plainPlatform (ScientificEv Sqrt) s in
  scientificValue plainPlatform "sqrt" (parseFloat (display s))
    = Throw "Invalid input" /\
  isError s' = true /\ history s' = history s /\
  previousValue s' = Some (parseFloat "-2") /\ operation s' = Some "+" /\
  ~ (previousValue s' = None /\ operation s' = None).
Proof.
  cbv zeta. repeat split; try (vm_compute; reflexivity).
  vm_compute. intros [H _]. discriminate H.
Qed.

(** The three failures of C2 at concrete states: 5 / 0 resolved by a further
    operator and by the equals key, and the square root of -2 with -2 and +
    pending. *)
Lemma failing_operation_enters_error_witness :
  let s :=
    run plainPlatform [NumberEv D5; OperationEv Divide; NumberEv D0]
      initialState in
  let t :=
    run plainPlatform
      [NumberEv D3; OperationEv Minus; NumberEv D5; OperationEv Plus]
      initialState in
  (isError (handleOperation plainPlatform "+" s) = true /\
   previousValue (handleOperation plainPlatform "+" s) = None) /\
  (isError (handleEquals plainPlatform s) = true /\
   operation (handleEquals plainPlatform s) = None) /\
  (isError (handleScientific plainPlatform "sqrt" t) = true /\
   operation (handleScientific plainPlatform "sqrt" t) = operation t).
Proof.
  cbv zeta.
  destruct (failing_operation_enters_error plainPlatform
              (run plainPlatform
                 [NumberEv D5; OperationEv Divide; NumberEv D0] initialState))
    as (H1 & H2 & _).
  destruct (failing_operation_enters_error plainPlatform
              (run plainPlatform
                 [NumberEv D3; OperationEv Minus; NumberEv D5;
                  OperationEv Plus] initialState))
    as (_ & _ & H3 & _).
  split; [|split].
  - destruct (H1 "+" (parseFloat "5") "/" "Division by zero")
      as (A & _ & _ & B & _);
      [vm_compute; reflexivity | vm_compute; reflexivity | discriminate
      | vm_compute; reflexivity | ].
    exact (conj A B).
  - destruct (H2 (parseFloat "5") "/" "Division by zero")
      as (A & _ & _ & _ & B);
      [vm_compute; reflexivity | vm_compute; reflexivity | discriminate
      | vm_compute; reflexivity | ].
    exact (conj A B).
  - destruct (H3 "sqrt" "Invalid input") as (A & _ & _ & _ & B);
      [vm_compute; reflexivity | ].
    exact (conj A B).
Defined.

(** C4 after the eleven squares. *)
Lemma history_capped_newest_first_witness :
  reachable plainPlatform (run plainPlatform elevenSquares initialState) /\
  (List.length (history (run plainPlatform elevenSquares initialState))
   <= 10)%nat.
Proof.
  split.
  - apply reachable_run. constructor.
  - exact (proj1 (history_capped_newest_first plainPlatform _
                    (reachable_run plainPlatform elevenSquares initialState
                       (reachable_initial plainPlatform)))).
Defined.

(** C5 after 3, +. *)
Lemma pending_operand_and_operator_together_witness :
  let s := run plainPlatform [NumberEv D3; OperationEv Plus] initialState in
  reachable plainPlatform s /\
  ((exists v op, previousValue s = Some v /\ operation s = Some op) \/
   (previousValue s = None /\ operation s = None)).
Proof.
  cbv zeta. split.
  - apply reachable_run. constructor.
  - exact (pending_operand_and_operator_together plainPlatform _
             (reachable_run plainPlatform [NumberEv D3; OperationEv Plus]
                initialState (reachable_initial plainPlatform))).
Defined.

(** C6 with 1.5 on the display. *)
Lemma handleDecimal_idempotent_witness :
  let s :=
    run plainPlatform [NumberEv D1; DecimalEv; NumberEv D5] initialState in
  display s = "1.5" /\ handleDecimal s = s.
Proof.
  cbv zeta. split; [vm_compute; reflexivity|].
  apply (proj2 (proj2 (handleDecimal_idempotent _))).
  - vm_compute. discriminate.
  - vm_compute. reflexivity.
  - vm_compute. reflexivity.
Defined.

(** C8 with 5 typed, and with -1 computed as 0 - 1. *)
Lemma factorial_of_display_witness :
  let five := run plainPlatform [NumberEv D5] initialState in
  let minusOne :=
    run plainPlatform [NumberEv D0; OperationEv Minus; NumberEv D1; EqualsEv]
      initialState in
  (display five = "5" /\
   display (handleScientific plainPlatform "!" five) = "120") /\
  (display minusOne = "-1" /\
   isError (handleScientific plainPlatform "!" minusOne) = true).
Proof.
  cbv zeta.
  assert (5 <= callStackSize plainPlatform)%nat as Hdepth
    by (apply Nat.leb_le; vm_compute; reflexivity).
  split; (split; [vm_compute; reflexivity|]).
  - apply (factorial_of_display plainPlatform _ Hdepth).
    vm_compute. reflexivity.
  - apply (factorial_of_display plainPlatform _ Hdepth).
    left. vm_compute. reflexivity.
Defined.

(** C9 with 42 typed. *)
Lemma memory_operations_witness :
  let s := run plainPlatform [NumberEv D4; NumberEv D2] initialState in
  display s = "42" /\
  display (handleMemory "MR" (handleMemory "MC" (handleMemory "MS" s))) = "0".
Proof.
  cbv zeta. split; [vm_compute; reflexivity|].
  apply (memory_operations plainPlatform _).
  vm_compute. reflexivity.
Defined.

(** C10 for the square of 4 with 3 and + pending. *)
Lemma scientific_success_keeps_pending_witness :
  let s :=
    run plainPlatform [NumberEv D3; OperationEv Plus; NumberEv D4]
      initialState in
  let s' := handleScientific plainPlatform "x²" s in
  scientificValue plainPlatform "x²" (parseFloat (display s))
    = Normal (Some (parseFloat "16")) /\
  previousValue s' = Some (parseFloat "3") /\ operation s' = Some "+" /\
  display s' = "16".
Proof.
  cbv zeta.
  assert (scientificValue plainPlatform "x²"
            (parseFloat
               (display
                  (run plainPlatform
                     [NumberEv D3; OperationEv Plus; NumberEv D4]
                     initialState)))
          = Normal (Some (parseFloat "16"))) as E
    by (vm_compute; reflexivity).
  split; [exact E|].
  destruct (scientific_success_keeps_pending plainPlatform _ _ _ E)
    as (A & B & C & _).
  rewrite A, B, C. repeat split; vm_compute; reflexivity.
Defined.

(** ** The further properties at concrete states *)

(** X1 for the keys 0, 0, 5 from the initial state. *)
Lemma typing_collapses_leading_zeros_witness :
  display (run plainPlatform (map NumberEv [D0; D0; D5]) initialState) = "5".
Proof.
  exact (typing_collapses_leading_zeros plainPlatform [D0; D0; D5]
           initialState eq_refl eq_refl).
Defined.

(** X3 for the digit 7 typed after 1, 2. *)
Lemma backspace_undoes_digit_witness :
  let s := run plainPlatform [NumberEv D1; NumberEv D2] initialState in
  display s = "12" /\ handleBackspace (handleNumber "7" s) = s.
Proof.
  cbv zeta. split; [vm_compute; reflexivity|].
  apply (backspace_undoes_digit D7).
  - vm_compute. reflexivity.
  - vm_compute. reflexivity.
  - vm_compute. discriminate.
Defined.

(** X4 for the displays "12" and "0". *)
Lemma handleBackspace_effect_witness :
  (exists c, "12" = display (handleBackspace (setDisplay "12" initialState))
                      ++ String c EmptyString) /\
  display (handleBackspace initialState) = "0".
Proof.
  split.
  - apply (proj1 (proj2 (proj2
             (handleBackspace_effect (setDisplay "12" initialState))))).
    cbn. lia.
  - apply (proj2 (proj2 (proj2 (handleBackspace_effect initialState)))).
    cbn. lia.
Defined.

(** X6 for 5 / 0. *)
Lemma calculate_throws_iff_witness :
  calculate plainPlatform (ofZ 5) zero "/" = Throw "Division by zero".
Proof.
  apply (proj1 (calculate_throws_iff plainPlatform (ofZ 5) zero "/"
                  "Division by zero")).
  split; [reflexivity|]. split; [now exists false | reflexivity].
Defined.

(** X7 with NaN and + pending: after 5, /, 0, = the display is "Error", and
    + takes its value, NaN, as the operand; then 4. *)
Lemma falsy_operand_taken_as_zero_witness :
  let s :=
    run plainPlatform
      [NumberEv D5; OperationEv Divide; NumberEv D0; EqualsEv;
       OperationEv Plus; NumberEv D4] initialState in
  previousValue s = Some NaN /\
  display (handleOperation plainPlatform "-" s) = "4" /\
  display (handleEquals plainPlatform s) = "NaN".
Proof.
  cbv zeta. split; [vm_compute; reflexivity|].
  destruct (falsy_operand_taken_as_zero plainPlatform "-" NaN
              (run plainPlatform
                 [NumberEv D5; OperationEv Divide; NumberEv D0; EqualsEv;
                  OperationEv Plus; NumberEv D4] initialState))
    as [A B].
  - vm_compute. reflexivity.
  - reflexivity.
  - vm_compute. discriminate.
  - split.
    + rewrite A. vm_compute. reflexivity.
    + apply B; [reflexivity | vm_compute; reflexivity].
Defined.

(** X8 in the error state after 5, /, 0, =: the digit 7 clears the flag,
    backspace does not. *)
Lemma error_left_by_entry_or_reset_witness :
  let s :=
    run plainPlatform
      [NumberEv D5; OperationEv Divide; NumberEv D0; EqualsEv]
      initialState in
  isError s = true /\
  isError (dispatch plainPlatform (NumberEv D7) s) = false /\
  isError (dispatch plainPlatform BackspaceEv s) = true.
Proof.
  cbv zeta. split; [vm_compute; reflexivity|]. split.
  - apply (proj1 (error_left_by_entry_or_reset plainPlatform (NumberEv D7) _)).
    reflexivity.
  - apply (proj2 (error_left_by_entry_or_reset plainPlatform BackspaceEv _)).
    + reflexivity.
    + vm_compute. reflexivity.
Defined.

(** X9 for the equals key after 5, /, 0. *)
Lemma error_entered_only_by_throw_witness :
  let s :=
    run plainPlatform [NumberEv D5; OperationEv Divide; NumberEv D0]
      initialState in
  isError s = false /\
  display (dispatch plainPlatform EqualsEv s) = "Error".
Proof.
  cbv zeta. split; [vm_compute; reflexivity|].
  apply (error_entered_only_by_throw plainPlatform EqualsEv).
  - vm_compute. reflexivity.
  - vm_compute. reflexivity.
Defined.

(** X10 for C with 42 in the memory. *)
Lemma memory_kept_by_other_events_witness :
  let s :=
    run plainPlatform [NumberEv D4; NumberEv D2; MemoryEv MS] initialState in
  memory s = ofZ 42 /\ memory (dispatch plainPlatform ClearEv s) = memory s.
Proof.
  cbv zeta. split; [vm_compute; reflexivity|].
  apply (memory_kept_by_other_events plainPlatform ClearEv). reflexivity.
Defined.

(** X11 for the equals key after 3, +, 4. *)
Lemma recorded_result_is_displayed_witness :
  let s :=
    run plainPlatform [NumberEv D3; OperationEv Plus; NumberEv D4]
      initialState in
  exists entry,
    history (dispatch plainPlatform EqualsEv s)
      = pushHistory entry (history s) /\
    display (dispatch plainPlatform EqualsEv s) = result entry.
Proof.
  cbv zeta.
  destruct (recorded_result_is_displayed plainPlatform EqualsEv
              (run plainPlatform [NumberEv D3; OperationEv Plus; NumberEv D4]
                 initialState))
    as (entry & A & B & _).
  - vm_compute. discriminate.
  - vm_compute. discriminate.
  - exists entry. split; [exact A | exact B].
Defined.

(** X12 after 3, +. *)
Lemma pending_operator_is_a_key_witness :
  let s := run plainPlatform [NumberEv D3; OperationEv Plus] initialState in
  operation s = Some "+" /\ In "+" ["+"; "-"; "*"; "/"; "^"].
Proof.
  cbv zeta. split; [vm_compute; reflexivity|].
  apply (pending_operator_is_a_key plainPlatform
           (run plainPlatform [NumberEv D3; OperationEv Plus] initialState)).
  - apply reachable_run. constructor.
  - vm_compute. reflexivity.
Defined.

(** X13 for the Tab key. *)
Lemma keyboard_as_buttons_witness :
  handleKeyPress plainPlatform "Tab" initialState = initialState.
Proof.
  apply (proj2 (proj2 (proj2 (proj2 (proj2 (proj2 (proj2 (proj2
           (keyboard_as_buttons plainPlatform initialState))))))))).
  - reflexivity.
  - cbn. intros H. repeat (destruct H as [H|H]; [discriminate H|]).
    exact H.
Defined.

(** X14 for 22!. *)
Lemma factorial_exact_to_22_witness :
  factorial 22 (ofZ 22) = Normal (ofZ 1124000727777607680000) /\
  factorial 21 (ofZ 22) = Throw "Maximum call stack size exceeded".
Proof.
  destruct (factorial_exact_to_22 22) as [A B]; [lia|].
  split; [exact A | apply B; lia].
Defined.

(** X15 after 7, /, 2, =. *)
Lemma display_well_formed_witness :
  let s :=
    run plainPlatform
      [NumberEv D7; OperationEv Divide; NumberEv D2; EqualsEv]
      initialState in
  display s = "3.5" /\ (countChar "." (display s) <= 1)%nat.
Proof.
  cbv zeta. split; [vm_compute; reflexivity|].
  apply (display_well_formed plainPlatform).
  apply reachable_run. constructor.
Defined.

(** X16 for 0, 3, ., 1, 4 from the initial state. *)
Lemma typing_decimal_number_witness :
  display
    (run plainPlatform
       (map NumberEv [D0; D3] ++ DecimalEv :: map NumberEv [D1; D4])
       initialState) = "3.14".
Proof.
  exact (typing_decimal_number plainPlatform [D0; D3] [D1; D4] initialState
           eq_refl eq_refl eq_refl).
Defined.

(** X17 after a result (a new entry is awaited), and in the error state
    that the square root of -2 leaves with a new entry awaited. *)
Lemma decimal_then_digit_witness :
  let s :=
    run plainPlatform [NumberEv D3; ScientificEv Square] initialState in
  let t :=
    run plainPlatform
      [NumberEv D3; OperationEv Minus; NumberEv D5; OperationEv Plus;
       ScientificEv Sqrt] initialState in
  display (handleNumber (digitText D5) (handleDecimal s)) = "0.5" /\
  display (handleNumber (digitText D5) (handleDecimal t)) = "5".
Proof.
  cbv zeta. split.
  - apply (proj1 (decimal_then_digit D5 _)); vm_compute; reflexivity.
  - destruct (proj2 (decimal_then_digit D5
                (run plainPlatform
                   [NumberEv D3; OperationEv Minus; NumberEv D5;
                    OperationEv Plus; ScientificEv Sqrt] initialState)))
      as [_ A]; [vm_compute; reflexivity|].
    rewrite A. vm_compute. reflexivity.
Defined.

(** X18 for 3, +, * and for 3, +, =. *)
Lemma operator_pressed_twice_witness :
  let s := run plainPlatform [NumberEv D3] initialState in
  display (handleOperation plainPlatform "*"
             (handleOperation plainPlatform "+" s)) = "6" /\
  display (handleEquals plainPlatform (handleOperation plainPlatform "+" s))
    = "6".
Proof.
  cbv zeta.
  destruct (operator_pressed_twice plainPlatform "+" "*"
              (run plainPlatform [NumberEv D3] initialState))
    as [A B]; [reflexivity | discriminate |].
  rewrite A, B. split; vm_compute; reflexivity.
Defined.

(** X19 for the square root of -2. *)
Lemma scientificValue_throws_iff_witness :
  scientificValue plainPlatform "sqrt" (parseFloat "-2")
    = Throw "Invalid input".
Proof.
  apply (proj1 (scientificValue_throws_iff plainPlatform "sqrt"
                  "Invalid input" (parseFloat "-2"))).
  left. repeat split.
Defined.
